(** * MoodMap: the mood analysis engine of [src/app/mood_analyzer.py]

    A shallow embedding of the class [MoodAnalyzer] and of the fragments of
    the Python runtime it runs on, followed by the properties of the
    clustering, event detection, area aggregation and trend operations.

    Conventions of the embedding.
    - A Python [float] is an IEEE 754 binary64 number: Rocq's primitive
      [float], whose operations round to nearest even as CPython's do.
    - A Python [int] is a [Z].
    - A Python [str] is a [string] holding its UTF-8 encoding.  UTF-8 is
      self-synchronising, so the substring test on encodings agrees with the
      substring test on code points.
    - A raised exception is the [Raise] result of the monad [Py.res]. *)

From Stdlib Require Import ZArith String Ascii List Bool Lia.
From Stdlib Require Import Sorting.Sorted Sorting.Permutation.
From Stdlib Require Import Floats.PrimFloat Floats.SpecFloat Floats.FloatOps.
From stdpp Require Import base gmap.
Import ListNotations.

#[local] Open Scope string_scope.
#[local] Open Scope list_scope.
#[local] Open Scope Z_scope.

(** ** The Python runtime *)

Module Py.

(** *** Exceptions *)

Inductive exn : Set := ValueError | OverflowError.

Inductive res (A : Type) : Type :=
| Ok (a : A)
| Raise (e : exn).

Arguments Ok {A} a.
Arguments Raise {A} e.

Definition bind {A B : Type} (c : res A) (k : A -> res B) : res B :=
  match c with
  | Ok a => k a
  | Raise e => Raise e
  end.

Notation "'let*' x ':=' c 'in' k" := (bind c (fun x => k))
  (at level 10, x pattern, c at level 100, k at level 200).

(** [for x in l: ...] where the body can raise and extends a state [S]. *)
Fixpoint foldM {A S : Type} (body : S -> A -> res S) (l : list A) (s : S) : res S :=
  match l with
  | [] => Ok s
  | x :: l' => let* s' := body s x in foldM body l' s'
  end.

(** A comprehension whose element expression can raise. *)
Fixpoint mapM {A B : Type} (f : A -> res B) (l : list A) : res (list B) :=
  match l with
  | [] => Ok []
  | x :: l' => let* y := f x in let* ys := mapM f l' in Ok (y :: ys)
  end.

(** *** Numbers *)

(** [float(z)]: the binary64 number nearest to [z], ties to even. *)
Definition float_of_int (z : Z) : float :=
  SF2Prim (binary_normalize prec emax z 0 false).

(** [int(x)] on a finite [x]: truncation towards zero.  (On a NaN or an
    infinity CPython raises; no caller below passes one, see
    [_calculate_mood_percentage] and [_detect_event_type].) *)
Definition int_of_float (x : float) : Z :=
  match Prim2SF x with
  | S754_finite s m e =>
      let a := match e with
               | Zneg p => Z.shiftr (Zpos m) (Zpos p)
               | _ => Z.shiftl (Zpos m) e
               end in
      if s then - a else a
  | _ => 0
  end.

(** [a / b] on two ints ([long_true_divide]): the binary64 number nearest to
    the exact quotient.  The quotient is computed to at least 55 bits with a
    sticky bit that records a non-zero remainder, then rounded once.  The
    divisor is non-zero at every call below.  A quotient beyond the binary64
    range comes out as an infinity; [truediv_checked] turns it into the
    [OverflowError] CPython raises. *)
Definition truediv (a b : Z) : float :=
  let neg := xorb (a <? 0) (b <? 0) in
  let n := Z.abs a in
  let d := Z.abs b in
  let k := Z.max 0 (Z.log2 d - Z.log2 n + 56) in
  let q := Z.shiftl n k / d in
  let sticky := if Z.shiftl n k mod d =? 0 then 0 else 1 in
  let m := 2 * q + sticky in
  SF2Prim (binary_normalize prec emax (if neg then - m else m) (- (k + 1)) neg).

Definition truediv_checked (a b : Z) : res float :=
  let q := truediv a b in
  if is_infinity q then Raise OverflowError else Ok q.

(** [min(x, 100)] keeps its first argument unless the second is smaller, and
    [int] of the result truncates. *)
Definition int_min_100 (x : float) : Z :=
  if PrimFloat.ltb (float_of_int 100) x then 100 else int_of_float x.

(** *** Strings *)

(** [needle in hay] on two strings. *)
Fixpoint contains (needle hay : string) : bool :=
  String.prefix needle hay ||
  match hay with
  | EmptyString => false
  | String _ hay' => contains needle hay'
  end.

(** [sep.join(l)]. *)
Definition join (sep : string) (l : list string) : string := String.concat sep l.

(** Truthiness of a string, as in [if not text]. *)
Definition truthy (s : string) : bool :=
  match s with
  | EmptyString => false
  | String _ _ => true
  end.

(** *** Sequences *)

(** [x in l] on a list of strings. *)
Definition str_in (x : string) (l : list string) : bool :=
  existsb (String.eqb x) l.

(** [sum(1 for x in l if p(x))]. *)
Definition count {A : Type} (p : A -> bool) (l : list A) : Z :=
  Z.of_nat (List.length (List.filter p l)).

(** [sorted(l, key=key, reverse=True)]: descending and stable, elements with
    equal keys keep their order. *)
Fixpoint insert_desc {A : Type} (key : A -> Z) (x : A) (l : list A) : list A :=
  match l with
  | [] => [x]
  | y :: l' => if key x <? key y then y :: insert_desc key x l' else x :: l
  end.

Definition sorted_desc {A : Type} (key : A -> Z) (l : list A) : list A :=
  List.fold_right (insert_desc key) [] l.

(** [collections.Counter(l)] and the dict filled by
    [d[k] = d.get(k, 0) + 1]: the counts, in order of first occurrence. *)
Fixpoint counter_add (k : string) (d : list (string * Z)) : list (string * Z) :=
  match d with
  | [] => [(k, 1)]
  | (k', n) :: d' => if String.eqb k k' then (k', n + 1) :: d'
                     else (k', n) :: counter_add k d'
  end.

Definition counter (l : list string) : list (string * Z) :=
  List.fold_left (fun d k => counter_add k d) l [].

(** [max(items, key=score)]: the first item with the greatest score. *)
Fixpoint max_by {A : Type} (score : A -> Z) (best : A) (l : list A) : A :=
  match l with
  | [] => best
  | x :: l' => max_by score (if score best <? score x then x else best) l'
  end.

(** [Counter.most_common(1)[0][0]] on a non-empty counter, [dflt] on an
    empty one (where the indexing raises; no caller reaches it). *)
Definition most_common1 (dflt : string) (d : list (string * Z)) : string :=
  match d with
  | [] => dflt
  | kv :: d' => fst (max_by snd kv d')
  end.

End Py.

Import Py.

(** ** Data model *)

(** An observation: one dict of the list given to [MoodAnalyzer].  The field
    [timestamp] holds the naive datetime that [datetime.fromisoformat] reads
    from the dict's ISO string, as microseconds since 0001-01-01T00:00:00;
    [text] is [None] when the key is absent or null. *)
Module Mood.
Record t : Type := mk {
  id : Z;
  emoji : string;
  text : option string;
  latitude : float;
  longitude : float;
  timestamp : Z;
  user_id : Z
}.
End Mood.

Module Cluster.
Record t : Type := mk {
  center : float * float;
  moods : list Mood.t;
  dominant_emoji : string;
  mood_percentage : Z
}.
End Cluster.

Module Event.
Record t : Type := mk {
  location : float * float;
  type : string;
  confidence : Z;
  dominant_emoji : string;
  mood_percentage : Z;
  moods_count : Z;
  keywords : list string
}.
End Event.

Module AreaMood.
Record t : Type := mk {
  dominant_emoji : string;
  mood_percentage : Z;
  moods_count : Z
}.
End AreaMood.

Module TrendReport.
Record t : Type := mk {
  time_periods : list string;
  mood_percentages : list Z;
  emoji_counts : list (string * Z);
  trend_direction : string
}.
End TrendReport.

(** ** Class constants *)

Definition CLUSTER_RADIUS_KM : float := 1%float.
Definition TIME_WINDOW_HOURS : Z := 4.
Definition MIN_CLUSTER_SIZE : Z := 5.

Definition POSITIVE_EMOJIS : list string := ["😊"; "😎"; "🥰"].
Definition NEGATIVE_EMOJIS : list string := ["😢"; "😡"; "😷"].
Definition NEUTRAL_EMOJIS : list string := ["😐"; "🤔"; "😴"].

(** The dict [EVENT_KEYWORDS], in insertion order. *)
Definition EVENT_KEYWORDS : list (string * list string) :=
  [ ("concert", ["концерт"; "музыка"; "группа"; "шоу"; "выступление"]);
    ("sports", ["игра"; "матч"; "спорт"; "команда"; "победа"; "проигрыш"]);
    ("traffic", ["пробка"; "затор"; "авария"; "дорога"; "машина"]);
    ("weather", ["дождь"; "снег"; "жара"; "холод"; "погода"; "гроза"]);
    ("food", ["ресторан"; "еда"; "покушать"; "ужин"; "обед"]);
    ("party", ["вечеринка"; "праздник"; "день рождения"; "юбилей"]) ].

(** ** [_calculate_mood_percentage] *)

Definition positive_count (moods : list Mood.t) : Z :=
  count (fun m => str_in (Mood.emoji m) POSITIVE_EMOJIS) moods.

Definition negative_count (moods : list Mood.t) : Z :=
  count (fun m => str_in (Mood.emoji m) NEGATIVE_EMOJIS) moods.

Definition neutral_count (moods : list Mood.t) : Z :=
  count (fun m => str_in (Mood.emoji m) NEUTRAL_EMOJIS) moods.

(** [int((positive_count + neutral_count / 2) / total * 100)]: the int is
    converted for the float addition, the sum divided by [float(total)], the
    quotient multiplied by [100.0], each operation rounding to binary64. *)
Definition percentage_of_counts (p u total : Z) : Z :=
  int_of_float
    ((float_of_int p + truediv u 2) / float_of_int total * float_of_int 100)%float.

Definition _calculate_mood_percentage (moods : list Mood.t) : Z :=
  match moods with
  | [] => 50
  | _ :: _ =>
      let p := positive_count moods in
      let n := negative_count moods in
      let u := neutral_count moods in
      let total := p + n + u in
      if total =? 0 then 50 else percentage_of_counts p u total
  end.

(** ** [_detect_event_type] *)

(** The keywords of one category found in [text]: the inner loop that fills
    [found_keywords[event_type]]. *)
Definition found_in (text : string) (keywords : list string) : list string :=
  List.filter (fun keyword => contains keyword text) keywords.

(** [event_scores[event_type]] of one entry of the table. *)
Definition event_score (text : string) (entry : string * list string) : Z :=
  Z.of_nat (List.length (found_in text (snd entry))).

(** [int(min(best_score / max_score * 100 + 20, 100))]. *)
Definition confidence_of (best_score max_score : Z) : Z :=
  int_min_100
    (truediv best_score max_score * float_of_int 100 + float_of_int 20)%float.

(** The entry of the table at [max(event_scores, key=event_scores.get)]: the
    keys of [event_scores] are those of [EVENT_KEYWORDS], in the same order,
    so the maximum is taken over the entries themselves, which gives
    [EVENT_KEYWORDS[best_event_type]] without a second lookup. *)
Definition best_entry (text : string) : string * list string :=
  match EVENT_KEYWORDS with
  | [] => ("unknown", [])
  | e :: es => max_by (event_score text) e es
  end.

Definition _detect_event_type (text : string) : string * list string * Z :=
  if negb (truthy text) then ("unknown", [], 0)
  else if List.forallb (fun e => event_score text e =? 0) EVENT_KEYWORDS
  then ("unknown", [], 0)
  else
    let best := best_entry text in
    let best_event_type := fst best in
    let best_score := event_score text best in
    let best_keywords := found_in text (snd best) in
    let max_score := Z.of_nat (List.length (snd best)) in
    (best_event_type, best_keywords, confidence_of best_score max_score).

(** ** [datetime] and [timedelta] *)

(** A naive [datetime] is its number of microseconds since
    0001-01-01T00:00:00, a [timedelta] its number of microseconds; both types
    are bounded, and arithmetic that leaves the bounds raises
    [OverflowError]. *)
Module Datetime.

Definition us_per_second : Z := 1000000.
Definition us_per_minute : Z := 60000000.
Definition us_per_hour : Z := 3600000000.
Definition us_per_day : Z := 86400000000.

(** [datetime.max] is 9999-12-31T23:59:59.999999, the last microsecond of
    day 3652059. *)
Definition max_datetime : Z := 3652059 * us_per_day - 1.

Definition max_delta_days : Z := 999999999.

(** The rounding of the fraction of a microsecond left over by [accum]:
    to the nearest microsecond, a half going to the even total. *)
Definition round_leftover (x : Z) (leftover : float) : Z :=
  let sign := if (leftover <? 0)%float then -1 else 1 in
  let a := abs leftover in
  if (a <? 0.5)%float then 0
  else if (a =? 0.5)%float then (if Z.odd x then sign else 0)
  else sign.

(** [timedelta(hours=h)] for a float [h], after [delta_new] and [accum]:
    the whole hours are converted exactly, the fraction of an hour is
    multiplied in floating point and split again, and what is left of a
    microsecond is rounded. *)
Definition timedelta_hours (h : float) : res Z :=
  if is_nan h then Raise ValueError
  else if is_infinity h then Raise OverflowError
  else
    let intpart := int_of_float h in
    let fracpart := (h - float_of_int intpart)%float in
    let sum := intpart * us_per_hour in
    let x :=
      if (fracpart =? 0)%float then sum
      else
        let dnum := (float_of_int us_per_hour * fracpart)%float in
        let intpart' := int_of_float dnum in
        let leftover := (dnum - float_of_int intpart')%float in
        let y := sum + intpart' in
        if (leftover =? 0)%float then y else y + round_leftover y leftover in
    if (- max_delta_days <=? x / us_per_day) && (x / us_per_day <=? max_delta_days)
    then Ok x else Raise OverflowError.

(** [d - delta]. *)
Definition sub_timedelta (d delta : Z) : res Z :=
  let r := d - delta in
  if (0 <=? r) && (r <=? max_datetime) then Ok r else Raise OverflowError.

(** [delta.total_seconds()]. *)
Definition total_seconds (delta : Z) : float := truediv delta us_per_second.

Definition two_digits (n : Z) : string :=
  String (ascii_of_nat (48 + Z.to_nat (n / 10)))
    (String (ascii_of_nat (48 + Z.to_nat (n mod 10))) EmptyString).

(** [d.strftime('%H:%M')]. *)
Definition strftime_HM (d : Z) : string :=
  (two_digits ((d / us_per_hour) mod 24) ++ ":"
   ++ two_digits ((d / us_per_minute) mod 60))%string.

End Datetime.

(** ** What the analyzer calls and this file does not define

    The functions of [math] and the float power, with the exceptions they
    can raise, the built-in [sum] over floats (a left fold before
    CPython 3.12, a compensated sum since) and [str.lower]. *)
Class Runtime : Type := {
  math_radians : float -> float;
  math_sin : float -> res float;
  math_cos : float -> res float;
  math_sqrt : float -> res float;
  math_atan2 : float -> float -> res float;
  float_pow : float -> Z -> res float;
  float_sum : list float -> float;
  str_lower : string -> string
}.

(** The operations of the analyzer and how one is invoked: the clock is the
    only thing an invocation reads besides its arguments. *)
Inductive component : Type :=
| Clustering
| EventDetection
| AreaAggregation (lat lng radius_km : float)
| TrendComputation (hours : Z).

Inductive output : Type :=
| Clusters (r : res (list Cluster.t))
| Events (r : res (list Event.t))
| Area (r : res AreaMood.t)
| Trends (r : res TrendReport.t).

(** ** [get_mood_trends] *)

(** The bounds [(period_start, period_end)] of period [i], the only part of
    the trend computation that can raise. *)
Definition period_bounds (now : Z) (period_hours : float) (i : Z) : res (Z * Z) :=
  let* d_end := Datetime.timedelta_hours (float_of_int i * period_hours)%float in
  let* period_end := Datetime.sub_timedelta now d_end in
  let* d_start := Datetime.timedelta_hours (float_of_int (i + 1) * period_hours)%float in
  let* period_start := Datetime.sub_timedelta now d_start in
  Ok (period_start, period_end).

Definition in_period (bounds : Z * Z) (mood : Mood.t) : bool :=
  (fst bounds <=? Mood.timestamp mood) && (Mood.timestamp mood <=? snd bounds).

Definition period_moods (moods : list Mood.t) (bounds : Z * Z) : list Mood.t :=
  List.filter (in_period bounds) moods.

(** The label and the percentage appended for one period. *)
Definition period_summary (moods : list Mood.t) (bounds : Z * Z) : string * Z :=
  let mood_percentage :=
    match period_moods moods bounds with
    | [] => 0
    | _ :: _ => _calculate_mood_percentage (period_moods moods bounds)
    end in
  ((Datetime.strftime_HM (fst bounds) ++ " - "
    ++ Datetime.strftime_HM (snd bounds))%string,
   mood_percentage).

Definition trend_direction_of (mood_percentages : list Z) : string :=
  if 2 <=? Z.of_nat (List.length mood_percentages) then
    if nth 1 mood_percentages 0 <? nth 0 mood_percentages 0 then "up"
    else if nth 0 mood_percentages 0 <? nth 1 mood_percentages 0 then "down"
    else "stable"
  else "stable".

(** [now] is the value of [datetime.utcnow()] at the call. *)
Definition get_mood_trends (now : Z) (moods : list Mood.t) (hours : Z)
  : res TrendReport.t :=
  let* period_hours := truediv_checked hours 6 in
  let* periods :=
    mapM (fun i => let* bounds := period_bounds now period_hours i in
                   Ok (period_summary moods bounds))
         [0; 1; 2; 3; 4; 5] in
  let time_periods := List.map fst periods in
  let mood_percentages := List.map snd periods in
  let emoji_counts := counter (List.map Mood.emoji moods) in
  Ok {| TrendReport.time_periods := time_periods;
        TrendReport.mood_percentages := mood_percentages;
        TrendReport.emoji_counts := emoji_counts;
        TrendReport.trend_direction := trend_direction_of mood_percentages |}.

Section Analyzer.

Context {rt : Runtime}.

(** ** [_calculate_distance] *)

Definition _calculate_distance (lat1 lon1 lat2 lon2 : float) : res float :=
  let R := 6371%float in
  let lat1_rad := math_radians lat1 in
  let lon1_rad := math_radians lon1 in
  let lat2_rad := math_radians lat2 in
  let lon2_rad := math_radians lon2 in
  let dlon := (lon2_rad - lon1_rad)%float in
  let dlat := (lat2_rad - lat1_rad)%float in
  let* sin_dlat := math_sin (dlat / 2)%float in
  let* sin_dlat_sq := float_pow sin_dlat 2 in
  let* cos_lat1 := math_cos lat1_rad in
  let* cos_lat2 := math_cos lat2_rad in
  let* sin_dlon := math_sin (dlon / 2)%float in
  let* sin_dlon_sq := float_pow sin_dlon 2 in
  let a := (sin_dlat_sq + cos_lat1 * cos_lat2 * sin_dlon_sq)%float in
  let* sqrt_a := math_sqrt a in
  let* sqrt_1a := math_sqrt (1 - a)%float in
  let* angle := math_atan2 sqrt_a sqrt_1a in
  let c := (2 * angle)%float in
  Ok (R * c)%float.

(** ** [cluster_moods] *)

(** [abs((mood_time - other_time).total_seconds() / 3600)]. *)
Definition time_diff (mood other : Mood.t) : float :=
  abs (Datetime.total_seconds (Mood.timestamp mood - Mood.timestamp other)
       / float_of_int 3600)%float.

Definition distance_between (mood other : Mood.t) : res float :=
  _calculate_distance (Mood.latitude mood) (Mood.longitude mood)
                      (Mood.latitude other) (Mood.longitude other).

(** The test that admits [other_mood] to the cluster seeded by [mood]. *)
Definition belongs (mood other_mood : Mood.t) : res bool :=
  let* distance := distance_between mood other_mood in
  Ok ((time_diff mood other_mood <=? float_of_int TIME_WINDOW_HOURS)%float
      && (distance <=? CLUSTER_RADIUS_KM)%float).

(** One turn of the inner loop, on the state
    [(cluster_moods, processed_ids)]. *)
Definition scan_step (mood : Mood.t) (st : list Mood.t * gset Z) (other_mood : Mood.t)
  : res (list Mood.t * gset Z) :=
  if bool_decide (Mood.id other_mood ∈ snd st) then Ok st
  else
    let* ok := belongs mood other_mood in
    if ok then Ok (fst st ++ [other_mood], {[ Mood.id other_mood ]} ∪ snd st)
    else Ok st.

(** The dict appended for a candidate that is kept. *)
Definition make_cluster (cluster_moods : list Mood.t) : Cluster.t :=
  let n := float_of_int (Z.of_nat (List.length cluster_moods)) in
  let lat_sum := float_sum (List.map Mood.latitude cluster_moods) in
  let lng_sum := float_sum (List.map Mood.longitude cluster_moods) in
  {| Cluster.center := ((lat_sum / n)%float, (lng_sum / n)%float);
     Cluster.moods := cluster_moods;
     Cluster.dominant_emoji :=
       most_common1 "" (counter (List.map Mood.emoji cluster_moods));
     Cluster.mood_percentage := _calculate_mood_percentage cluster_moods |}.

(** One turn of the outer loop, on the state [(clusters, processed_ids)]. *)
Definition seed_step (sorted_moods : list Mood.t) (st : list Cluster.t * gset Z)
  (mood : Mood.t) : res (list Cluster.t * gset Z) :=
  if bool_decide (Mood.id mood ∈ snd st) then Ok st
  else
    let* scanned :=
      foldM (scan_step mood) sorted_moods ([mood], {[ Mood.id mood ]} ∪ snd st) in
    if MIN_CLUSTER_SIZE <=? Z.of_nat (List.length (fst scanned))
    then Ok (fst st ++ [make_cluster (fst scanned)], snd scanned)
    else Ok (fst st, snd scanned).

Definition cluster_moods (moods : list Mood.t) : res (list Cluster.t) :=
  let sorted_moods := sorted_desc Mood.timestamp moods in
  let* final := foldM (seed_step sorted_moods) sorted_moods ([], ∅) in
  Ok (fst final).

(** What the inner loop keeps true of the candidate: it is the seed followed
    by observations that passed the test against the seed. *)
Definition seeded_by (seed : Mood.t) (candidate : list Mood.t) : Prop :=
  exists others,
    candidate = seed :: others
    /\ Forall (fun other => belongs seed other = Ok true) others.

(** What the outer loop keeps true of the clusters appended so far. *)
Definition well_formed (cluster : Cluster.t) : Prop :=
  MIN_CLUSTER_SIZE <= Z.of_nat (List.length (Cluster.moods cluster))
  /\ exists seed, seeded_by seed (Cluster.moods cluster).

(** ** [detect_events] *)

(** [m.get('text')] is truthy. *)
Definition has_text (m : Mood.t) : bool :=
  match Mood.text m with
  | Some s => truthy s
  | None => false
  end.

Definition text_of (m : Mood.t) : string :=
  match Mood.text m with
  | Some s => s
  | None => EmptyString
  end.

Definition all_text (cluster : Cluster.t) : string :=
  join " " (List.map (fun m => str_lower (text_of m))
                     (List.filter has_text (Cluster.moods cluster))).

(** The event appended for a cluster, if any. *)
Definition event_of_cluster (cluster : Cluster.t) : option Event.t :=
  let '(event_type, keywords, confidence) := _detect_event_type (all_text cluster) in
  if 30 <=? confidence then
    Some {| Event.location := Cluster.center cluster;
            Event.type := event_type;
            Event.confidence := confidence;
            Event.dominant_emoji := Cluster.dominant_emoji cluster;
            Event.mood_percentage := Cluster.mood_percentage cluster;
            Event.moods_count := Z.of_nat (List.length (Cluster.moods cluster));
            Event.keywords := keywords |}
  else None.

Definition events_of (clusters : list Cluster.t) : list Event.t :=
  List.fold_left
    (fun events cluster =>
       match event_of_cluster cluster with
       | Some e => events ++ [e]
       | None => events
       end)
    clusters [].

Definition detect_events (moods : list Mood.t) : res (list Event.t) :=
  let* clusters := cluster_moods moods in
  Ok (events_of clusters).

(** ** [get_area_mood] *)

Definition neutral_area_mood : AreaMood.t :=
  {| AreaMood.dominant_emoji := "😐";
     AreaMood.mood_percentage := 50;
     AreaMood.moods_count := 0 |}.

(** One turn of the loop that fills [area_moods]. *)
Definition area_step (lat lng radius_km : float) (area_moods : list Mood.t)
  (mood : Mood.t) : res (list Mood.t) :=
  let* distance :=
    _calculate_distance lat lng (Mood.latitude mood) (Mood.longitude mood) in
  if (distance <=? radius_km)%float then Ok (area_moods ++ [mood])
  else Ok area_moods.

Definition get_area_mood (moods : list Mood.t) (lat lng radius_km : float)
  : res AreaMood.t :=
  let* area_moods := foldM (area_step lat lng radius_km) moods [] in
  match area_moods with
  | [] => Ok neutral_area_mood
  | _ :: _ =>
      Ok {| AreaMood.dominant_emoji :=
              most_common1 "😐" (counter (List.map Mood.emoji area_moods));
            AreaMood.mood_percentage := _calculate_mood_percentage area_moods;
            AreaMood.moods_count := Z.of_nat (List.length area_moods) |}
  end.

(** ** An invocation *)

(** The output of one invocation of a component on the snapshot [moods],
    made when the clock reads [now]. *)
Definition invoke (now : Z) (op : component) (moods : list Mood.t) : output :=
  match op with
  | Clustering => Clusters (cluster_moods moods)
  | EventDetection => Events (detect_events moods)
  | AreaAggregation lat lng radius_km => Area (get_area_mood moods lat lng radius_km)
  | TrendComputation hours => Trends (get_mood_trends now moods hours)
  end.

End Analyzer.

(** ** The formulas of the specification, for comparison *)

(** [round(n / d)] on exact rationals, [d > 0]: the nearest integer, a half
    going to the even one. *)
Definition spec_round (n d : Z) : Z :=
  let q := n / d in
  let r := n mod d in
  if 2 * r <? d then q
  else if d <? 2 * r then q + 1
  else if Z.even q then q else q + 1.

(** "Confidence = min(round(matched_count / total_keywords * 100) + 20, 100)". *)
Definition spec_confidence (matched_count total_keywords : Z) : Z :=
  Z.min (spec_round (matched_count * 100) total_keywords + 20) 100.

(** The same with the quotient truncated instead of rounded. *)
Definition floor_confidence (matched_count total_keywords : Z) : Z :=
  Z.min (matched_count * 100 / total_keywords + 20) 100.

(** "If P+N+U = 0, return 50. Otherwise return
    floor((P + U/2) / (P+N+U) * 100)", on exact rationals. *)
Definition spec_mood_percentage (P N U : Z) : Z :=
  if P + N + U =? 0 then 50 else (2 * P + U) * 100 / (2 * (P + N + U)).

(** Some keyword of some category occurs in [text]. *)
Definition matches_keyword (text : string) : Prop :=
  exists entry keyword,
    In entry EVENT_KEYWORDS /\ In keyword (snd entry) /\ contains keyword text = true.

(** No member of the cluster has a non-empty text. *)
Definition no_text (cluster : Cluster.t) : Prop :=
  forall m, In m (Cluster.moods cluster) -> has_text m = false.

(** The bounds of the six periods, most recent first. *)
Definition all_bounds (now hours : Z) : res (list (Z * Z)) :=
  let* period_hours := truediv_checked hours 6 in
  mapM (period_bounds now period_hours) [0; 1; 2; 3; 4; 5].

(** How many of the periods contain an observation. *)
Definition periods_with_data (moods : list Mood.t) (bounds : list (Z * Z)) : nat :=
  List.length
    (List.filter (fun b => match period_moods moods b with [] => false | _ => true end)
                 bounds).

Definition is_trend (op : component) : bool :=
  match op with
  | TrendComputation _ => true
  | _ => false
  end.

(** The bounds of a period, [d] microseconds later. *)
Definition shift (d : Z) (bounds : Z * Z) : Z * Z :=
  (fst bounds + d, snd bounds + d).

(** The observation is in the period and leaves it, or is after the period
    and enters it, when the bounds of the period move [d] microseconds
    forward. *)
Definition crosses (d : Z) (bounds : Z * Z) (mood : Mood.t) : bool :=
  let t := Mood.timestamp mood in
  ((fst bounds <=? t) && (t <? fst bounds + d))
  || ((snd bounds <? t) && (t <=? snd bounds + d)).

(** No observation changes period when the clock advances by [d]. *)
Definition no_crossing (moods : list Mood.t) (bounds : list (Z * Z)) (d : Z) : bool :=
  List.forallb (fun b => List.forallb (fun mood => negb (crosses d b mood)) moods)
               bounds.

(** ** A runtime to evaluate the analyzer on sample inputs

    Series for the circular functions, accurate to about the last digit on
    the arguments met below, the exceptions of the [math] module, a left
    fold for [sum], and [lower] on ASCII and Russian letters. *)
Module Sample.

Fixpoint alternating (n : nat) (k : Z) (x2 term acc : float) : float :=
  match n with
  | O => acc
  | S n' =>
      let term' := (- term * x2 / float_of_int ((k + 1) * (k + 2)))%float in
      alternating n' (k + 2) x2 term' (acc + term')%float
  end.

Definition sin (x : float) : float := alternating 24 1 (x * x)%float x x.
Definition cos (x : float) : float := alternating 24 0 (x * x)%float 1%float 1%float.

Fixpoint arctan_series (n : nat) (k : Z) (t2 power acc : float) : float :=
  match n with
  | O => acc
  | S n' =>
      let power' := (- power * t2)%float in
      arctan_series n' (k + 2) t2 power'
        (acc + power' / float_of_int (k + 2))%float
  end.

(** [atan2(y, x)] for [y >= 0] and [x > 0], halving the angle twice. *)
Definition atan2 (y x : float) : float :=
  let x1 := (x + sqrt (x * x + y * y))%float in
  let x2 := (x1 + sqrt (x1 * x1 + y * y))%float in
  let t := (y / x2)%float in
  (4 * arctan_series 40 1 (t * t) t t)%float.

Definition checked (f : float -> float) (x : float) : res float :=
  let r := f x in
  if is_nan r && negb (is_nan x) then Raise ValueError
  else if is_infinity r && is_finite x then Raise ValueError
  else Ok r.

Definition pow (x : float) (n : Z) : res float :=
  let r := Z.iter n (mul x) 1%float in
  if is_infinity r && is_finite x then Raise OverflowError else Ok r.

Definition lower_ascii (c : ascii) : ascii :=
  let n := nat_of_ascii c in
  if (65 <=? n)%nat && (n <=? 90)%nat then ascii_of_nat (n + 32) else c.

(** In UTF-8 the letters А..П are D0 90..9F and go to D0 B0..BF, Р..Я are
    D0 A0..AF and go to D1 80..8F. *)
Fixpoint lower (s : string) : string :=
  match s with
  | EmptyString => EmptyString
  | String c s' =>
      match s' with
      | String c' s'' =>
          let n := nat_of_ascii c in
          let n' := nat_of_ascii c' in
          if (n =? 208)%nat && (144 <=? n')%nat && (n' <=? 159)%nat
          then String c (String (ascii_of_nat (n' + 32)) (lower s''))
          else if (n =? 208)%nat && (160 <=? n')%nat && (n' <=? 175)%nat
          then String (ascii_of_nat 209) (String (ascii_of_nat (n' - 32)) (lower s''))
          else String (lower_ascii c) (lower s')
      | EmptyString => String (lower_ascii c) EmptyString
      end
  end.

Definition runtime : Runtime := {|
  math_radians x := (x * (0x1.921fb54442d18p+1 / 180))%float;
  math_sin := checked sin;
  math_cos := checked cos;
  math_sqrt := checked sqrt;
  math_atan2 y x := Ok (atan2 y x);
  float_pow := pow;
  float_sum l := List.fold_left add l 0%float;
  str_lower := lower
|}.

(** 2024-01-01T12:34:00. *)
Definition now : Z :=
  738885 * Datetime.us_per_day + 12 * Datetime.us_per_hour
  + 34 * Datetime.us_per_minute.

(** An observation near the centre of Moscow, [minutes_ago] before [now],
    [north] steps of 2^-11 degrees (about 54 m) north of 55.75 N. *)
Definition mood (id : Z) (emoji : string) (text : option string)
  (north minutes_ago : Z) : Mood.t :=
  {| Mood.id := id;
     Mood.emoji := emoji;
     Mood.text := text;
     Mood.latitude := (55.75 + float_of_int north * 0x1p-11)%float;
     Mood.longitude := 37.625%float;
     Mood.timestamp := now - minutes_ago * Datetime.us_per_minute;
     Mood.user_id := 7 |}.

(** Five observations within 220 m and 10 minutes, all positive, no text. *)
Definition silent_five : list Mood.t :=
  [ mood 1 "😊" None 0 2; mood 2 "😊" (Some "") 1 4; mood 3 "😊" None 2 6;
    mood 4 "😊" None 3 8; mood 5 "😊" None 4 10 ].

(** The same five, each with a text that names a concert, and a sixth a long
    way north. *)
Definition concert_six : list Mood.t :=
  [ mood 1 "😊" (Some "Концерт!") 0 2; mood 2 "😎" (Some "концерт") 1 4;
    mood 3 "😐" (Some "на концерте") 2 6; mood 4 "😊" (Some "КОНЦЕРТ") 3 8;
    mood 5 "😢" (Some "концерт") 4 10; mood 6 "😡" (Some "пробка") 4000 1 ].

(** Fourteen positive, one neutral and ten negative observations. *)
Definition twenty_five : list Mood.t :=
  List.map (fun i => mood i "😊" None 0 i) [1; 2; 3; 4; 5; 6; 7; 8; 9; 10; 11; 12; 13; 14]
  ++ [mood 15 "😐" None 0 15]
  ++ List.map (fun i => mood i "😢" None 0 i) [16; 17; 18; 19; 20; 21; 22; 23; 24; 25].

(** One positive observation an hour before [now]. *)
Definition one_hour_ago : list Mood.t := [mood 1 "😊" None 0 60].

(** One positive observation four hours before [now], to the microsecond. *)
Definition four_hours_ago : list Mood.t := [mood 1 "😊" None 0 240].

(** One observation at 2.5 N, 180 E: the antipode of 2.5 S, 0 E. *)
Definition antipode : list Mood.t :=
  [ {| Mood.id := 1;
       Mood.emoji := "😊";
       Mood.text := None;
       Mood.latitude := 2.5%float;
       Mood.longitude := 180%float;
       Mood.timestamp := now;
       Mood.user_id := 7 |} ].

(** The series for the sine is one unit in the last place above 1 at pi/2,
    where the C library returns 1.  As the C library does, [sin_reduced]
    brings an argument between pi/4 and 3 pi/4 into [-pi/4, pi/4] by
    subtracting pi/2, held as a leading part and a tail, and takes the
    cosine. *)
Definition pio2_hi : float := 0x1.921fb54442d18p+0%float.
Definition pio2_lo : float := 0x1.1a62633145c07p-54%float.

Definition sin_reduced (x : float) : float :=
  if (0x1.921fb54442d18p-1 <? x)%float && (x <? 0x1.2d97c7f3321d2p+1)%float
  then cos (x - pio2_hi - pio2_lo)%float
  else sin x.

(** [runtime] with the reduced sine. *)
Definition reduced : Runtime := {|
  math_radians := @math_radians runtime;
  math_sin := checked sin_reduced;
  math_cos := @math_cos runtime;
  math_sqrt := @math_sqrt runtime;
  math_atan2 := @math_atan2 runtime;
  float_pow := @float_pow runtime;
  float_sum := @float_sum runtime;
  str_lower := @str_lower runtime
|}.

End Sample.

(** ** The callers in [src/app/app.py]

    The table [Mood] is the list [rows] of its rows, and the clock reading
    of a request is [now].  A query parameter read with [type=float] that is
    absent or does not parse is [None]. *)
Module App.

(** A response: the JSON value, or the status 400 of a refused request. *)
Inductive response (A : Type) : Type :=
| Json (a : A)
| BadRequest.

Arguments Json {A} a.
Arguments BadRequest {A}.

(** The dict built from a row: the text is [mood.text or ''], and the
    timestamp goes through [isoformat] and back unchanged. *)
Definition row_dict (row : Mood.t) : Mood.t :=
  {| Mood.id := Mood.id row;
     Mood.emoji := Mood.emoji row;
     Mood.text := Some (match Mood.text row with
                        | Some s => s
                        | None => EmptyString
                        end);
     Mood.latitude := Mood.latitude row;
     Mood.longitude := Mood.longitude row;
     Mood.timestamp := Mood.timestamp row;
     Mood.user_id := Mood.user_id row |}.

(** A list comprehension whose condition can raise. *)
Fixpoint filterM {A : Type} (keep : A -> res bool) (l : list A) : res (list A) :=
  match l with
  | [] => Ok []
  | x :: l' =>
      let* k := keep x in
      let* kept := filterM keep l' in
      Ok (if k then x :: kept else kept)
  end.

Section Handlers.

Context {rt : Runtime}.

(** The condition of the location filter. *)
Definition in_radius (lat lng radius : float) (mood : Mood.t) : res bool :=
  let* distance :=
    _calculate_distance lat lng (Mood.latitude mood) (Mood.longitude mood) in
  Ok (distance <=? radius)%float.

Definition get_mood_data_for_api (rows : list Mood.t) (now : Z)
  (lat lng radius hours : option float) (emojis : option (list string))
  : res (list Mood.t) :=
  let result := List.map row_dict rows in
  let* result :=
    match hours with
    | Some h =>
        let* delta := Datetime.timedelta_hours h in
        let* cutoff_time := Datetime.sub_timedelta now delta in
        Ok (List.filter (fun mood => cutoff_time <? Mood.timestamp mood) result)
    | None => Ok result
    end in
  let result :=
    match emojis with
    | Some (e :: es) =>
        List.filter (fun mood => str_in (Mood.emoji mood) (e :: es)) result
    | _ => result
    end in
  match lat, lng, radius with
  | Some lat, Some lng, Some radius => filterM (in_radius lat lng radius) result
  | _, _, _ => Ok result
  end.

(** [/api/area-mood]; [radius] has the default 5.0. *)
Definition get_area_mood (rows : list Mood.t) (now : Z) (lat lng : option float)
  (radius : float) (hours : option float) : res (response AreaMood.t) :=
  match lat, lng with
  | Some lat, Some lng =>
      let* moods := get_mood_data_for_api rows now None None None hours None in
      let* area_mood := get_area_mood moods lat lng radius in
      Ok (Json area_mood)
  | _, _ => Ok BadRequest
  end.

(** [/api/events]; [hours] has the default 24, [min_confidence] 30. *)
Definition get_events (rows : list Mood.t) (now : Z) (lat lng radius : option float)
  (hours : float) (min_confidence : Z) : res (list Event.t) :=
  let* moods := get_mood_data_for_api rows now lat lng radius (Some hours) None in
  let* events := detect_events moods in
  Ok (if 0 <? min_confidence
      then List.filter (fun event => min_confidence <=? Event.confidence event) events
      else events).

(** [/api/trends]: the report and the entry [total_moods] added to it. *)
Definition get_trends (rows : list Mood.t) (now : Z) (hours : Z)
  (lat lng radius : option float) : res (TrendReport.t * Z) :=
  let* moods := get_mood_data_for_api rows now lat lng radius None None in
  let* trends := get_mood_trends now moods hours in
  Ok (trends, Z.of_nat (List.length moods)).

End Handlers.

End App.

(** ** Notions used to state further properties *)

(** The ids of the members of a list of clusters. *)
Definition member_ids (clusters : list Cluster.t) : list Z :=
  List.map Mood.id (List.concat (List.map Cluster.moods clusters)).

(** [a] is at least as recent as [b]. *)
Definition not_older (a b : Mood.t) : Prop := Mood.timestamp b <= Mood.timestamp a.

(** [d.get(k, 0)] on a counter. *)
Fixpoint get0 (k : string) (d : list (string * Z)) : Z :=
  match d with
  | [] => 0
  | (k', n) :: d' => if String.eqb k k' then n else get0 k d'
  end.

(** The number of occurrences of [k] in [l]. *)
Definition occurrences (k : string) (l : list string) : Z := count (String.eqb k) l.

(** The sum of the counts of a counter. *)
Definition total_count (d : list (string * Z)) : Z :=
  List.fold_right (fun kv acc => snd kv + acc) 0 d.

(** The emoji lies in none of the three sets. *)
Definition outside_taxonomy (m : Mood.t) : bool :=
  negb (str_in (Mood.emoji m) POSITIVE_EMOJIS)
  && negb (str_in (Mood.emoji m) NEGATIVE_EMOJIS)
  && negb (str_in (Mood.emoji m) NEUTRAL_EMOJIS).

Section AreaNotions.

Context {rt : Runtime}.

(** The distance from the centre to the observation is computed and is at
    most the radius. *)
Definition within_radius (lat lng radius_km : float) (mood : Mood.t) : bool :=
  match _calculate_distance lat lng (Mood.latitude mood) (Mood.longitude mood) with
  | Ok distance => (distance <=? radius_km)%float
  | Raise _ => false
  end.

End AreaNotions.

Section ClusterInvariants.

Context {rt : Runtime}.

(** A cluster is placed in the sorted list: it is the cluster made of a seed
    and of observations that stand after the seed, in their order. *)
Definition placed (sorted_moods : list Mood.t) (cluster : Cluster.t) : Prop :=
  exists seed others before after,
    sorted_moods = before ++ seed :: after
    /\ others `sublist_of` after
    /\ cluster = make_cluster (seed :: others).

(** What the outer loop of [cluster_moods] keeps true once it has visited
    the observations [visited]: their ids are processed, the ids of the
    members of the clusters are processed and pairwise distinct, and every
    cluster is placed. *)
Definition outer_invariant (sorted_moods visited : list Mood.t)
  (st : list Cluster.t * gset Z) : Prop :=
  (forall m, In m visited -> Mood.id m ∈ snd st)
  /\ List.NoDup (member_ids (fst st))
  /\ (forall i, In i (member_ids (fst st)) -> i ∈ snd st)
  /\ Forall (placed sorted_moods) (fst st).

End ClusterInvariants.

(** * Properties *)

(** ** The exception monad *)

Lemma bind_Ok {A B : Type} (c : res A) (k : A -> res B) (b : B) :
  bind c k = Ok b -> exists a, c = Ok a /\ k a = Ok b.
Proof.
  destruct c as [a|e]; simpl; intros H; [exists a; auto | discriminate].
Qed.

Lemma bind_ret {A B : Type} (a : A) (k : A -> res B) : bind (Ok a) k = k a.
Proof. reflexivity. Qed.

(** A property kept by every turn of a loop holds when the loop ends. *)
Lemma foldM_invariant {A S : Type} (P : S -> Prop) (body : S -> A -> res S) :
  (forall s x s', P s -> body s x = Ok s' -> P s') ->
  forall l s s', P s -> foldM body l s = Ok s' -> P s'.
Proof.
  intros Hstep l; induction l as [|x l IH]; simpl; intros s s' Hs Hrun.
  - injection Hrun as <-. exact Hs.
  - apply bind_Ok in Hrun as (s1 & H1 & H2). eauto.
Qed.

Lemma mapM_length {A B : Type} (f : A -> res B) (l : list A) (ys : list B) :
  mapM f l = Ok ys -> List.length ys = List.length l.
Proof.
  revert ys; induction l as [|x l IH]; simpl; intros ys H.
  - injection H as <-. reflexivity.
  - apply bind_Ok in H as (y & _ & H). apply bind_Ok in H as (ys' & H1 & H2).
    injection H2 as <-. simpl. f_equal. auto.
Qed.

(** A comprehension that applies a total function to the result of a
    fallible one raises exactly when the fallible part does. *)
Lemma mapM_post {A B C : Type} (f : A -> res B) (g : B -> C) (l : list A) :
  mapM (fun x => let* y := f x in Ok (g y)) l
  = let* ys := mapM f l in Ok (List.map g ys).
Proof.
  induction l as [|x l IH]; simpl; [reflexivity|].
  destruct (f x) as [y|e]; simpl; [|reflexivity].
  rewrite IH. destruct (mapM f l); reflexivity.
Qed.

(** ** [max] with a key *)

Lemma max_by_spec {A : Type} (score : A -> Z) (l : list A) (best : A) :
  In (max_by score best l) (best :: l)
  /\ forall x, In x (best :: l) -> score x <= score (max_by score best l).
Proof.
  revert best; induction l as [|y l IH]; intros best; simpl.
  - split; [auto|]. intros x [<-|[]]. lia.
  - destruct (IH (if score best <? score y then y else best)) as [Hin Hmax].
    split.
    + destruct Hin as [Hin|Hin]; [|auto].
      rewrite <- Hin. destruct (score best <? score y); auto.
    + intros x Hx.
      assert (Hb : score best <= score (if score best <? score y then y else best)
                   /\ score y <= score (if score best <? score y then y else best)).
      { destruct (Z.ltb_spec (score best) (score y)); lia. }
      destruct Hx as [<-|[<-|Hx]].
      * etransitivity; [apply Hb|]. apply Hmax. left. reflexivity.
      * etransitivity; [apply Hb|]. apply Hmax. left. reflexivity.
      * apply Hmax. right. exact Hx.
Qed.

(** ** The keyword table *)

Lemma table_sizes (entry : string * list string) :
  In entry EVENT_KEYWORDS ->
  let n := Z.of_nat (List.length (snd entry)) in n = 4 \/ n = 5 \/ n = 6.
Proof.
  unfold EVENT_KEYWORDS. simpl In.
  intros [<-|[<-|[<-|[<-|[<-|[<-|[]]]]]]]; simpl; lia.
Qed.

Lemma keyword_not_in_empty (entry : string * list string) (keyword : string) :
  In entry EVENT_KEYWORDS -> In keyword (snd entry) -> contains keyword "" = false.
Proof.
  unfold EVENT_KEYWORDS. simpl In.
  intros [<-|[<-|[<-|[<-|[<-|[<-|[]]]]]]]; simpl In; intros H;
    repeat (destruct H as [<-|H]; [reflexivity|]); destruct H.
Qed.

Lemma found_in_length (text : string) (keywords : list string) :
  (List.length (found_in text keywords) <= List.length keywords)%nat.
Proof.
  unfold found_in. induction keywords as [|k ks IH]; simpl; [lia|].
  destruct (contains k text); simpl; lia.
Qed.

Lemma event_score_bounds (text : string) (entry : string * list string) :
  0 <= event_score text entry <= Z.of_nat (List.length (snd entry)).
Proof.
  unfold event_score. pose proof (found_in_length text (snd entry)). lia.
Qed.

Lemma event_score_positive (text : string) (entry : string * list string)
  (keyword : string) :
  In keyword (snd entry) -> contains keyword text = true ->
  1 <= event_score text entry.
Proof.
  intros Hin Hc. unfold event_score.
  assert (H : In keyword (found_in text (snd entry))).
  { unfold found_in. apply List.filter_In. auto. }
  destruct (found_in text (snd entry)); [destruct H | simpl; lia].
Qed.

Lemma event_score_zero (text : string) (entry : string * list string)
  (keyword : string) :
  event_score text entry = 0 -> In keyword (snd entry) ->
  contains keyword text = false.
Proof.
  intros H0 Hin. destruct (contains keyword text) eqn:E; [|reflexivity].
  pose proof (event_score_positive text entry keyword Hin E). lia.
Qed.

(** The arithmetic of the confidence: on the sizes of the table the
    binary64 evaluation of [best_score / max_score * 100 + 20], cut at 100
    and truncated, is the truncated percentage plus 20, cut at 100. *)
Lemma confidence_of_floor (best_score max_score : Z) :
  max_score = 4 \/ max_score = 5 \/ max_score = 6 ->
  0 <= best_score <= max_score ->
  confidence_of best_score max_score = floor_confidence best_score max_score.
Proof.
  intros Hm Hs.
  assert (Hcases : best_score = 0 \/ best_score = 1 \/ best_score = 2
                   \/ best_score = 3 \/ best_score = 4 \/ best_score = 5
                   \/ best_score = 6) by lia.
  destruct Hm as [-> | [-> | ->]];
    repeat (destruct Hcases as [-> | Hcases]; [first [vm_compute; reflexivity | lia]|]);
    subst; first [vm_compute; reflexivity | lia].
Qed.

Lemma floor_confidence_bounds (best_score max_score : Z) :
  max_score = 4 \/ max_score = 5 \/ max_score = 6 ->
  1 <= best_score <= max_score ->
  36 <= floor_confidence best_score max_score <= 100.
Proof.
  intros Hm Hs. unfold floor_confidence.
  assert (16 <= best_score * 100 / max_score).
  { apply Z.div_le_lower_bound; lia. }
  lia.
Qed.

Lemma best_entry_spec (text : string) :
  In (best_entry text) EVENT_KEYWORDS
  /\ forall entry, In entry EVENT_KEYWORDS ->
                   event_score text entry <= event_score text (best_entry text).
Proof.
  exact (max_by_spec (event_score text) (List.tl EVENT_KEYWORDS)
                     (List.hd ("unknown", []) EVENT_KEYWORDS)).
Qed.

Lemma matches_keyword_truthy (text : string) :
  matches_keyword text -> truthy text = true.
Proof.
  intros (entry & keyword & He & Hk & Hc).
  destruct text; [|reflexivity].
  rewrite (keyword_not_in_empty entry keyword He Hk) in Hc. discriminate.
Qed.

Lemma all_scores_zero (text : string) :
  List.forallb (fun e => event_score text e =? 0) EVENT_KEYWORDS = true
  <-> ~ matches_keyword text.
Proof.
  rewrite List.forallb_forall. split.
  - intros Hall (entry & keyword & He & Hk & Hc).
    apply Hall in He. apply Z.eqb_eq in He.
    rewrite (event_score_zero text entry keyword He Hk) in Hc. discriminate.
  - intros Hno entry He. apply Z.eqb_eq.
    destruct (Z.eq_dec (event_score text entry) 0) as [|Hne]; [assumption|].
    exfalso. apply Hno.
    pose proof (event_score_bounds text entry) as Hb.
    unfold event_score in *.
    destruct (found_in text (snd entry)) as [|keyword rest] eqn:E; [simpl in Hne; lia|].
    assert (Hin : In keyword (found_in text (snd entry))) by (rewrite E; left; reflexivity).
    unfold found_in in Hin. apply List.filter_In in Hin as [Hin Hc].
    exists entry, keyword. auto.
Qed.

(** What the classifier returns on a text with no keyword. *)
Lemma detect_event_type_unmatched (text : string) :
  ~ matches_keyword text -> _detect_event_type text = ("unknown", [], 0).
Proof.
  intros Hno. unfold _detect_event_type.
  destruct (negb (truthy text)); [reflexivity|].
  apply all_scores_zero in Hno. rewrite Hno. reflexivity.
Qed.

(** What the classifier returns on a text with a keyword: the first
    category with the most keywords found, these keywords, and the truncated
    percentage of the category's keywords plus 20, cut at 100. *)
Lemma detect_event_type_matched (text : string) :
  matches_keyword text ->
  exists event_type keywords,
    In (event_type, keywords) EVENT_KEYWORDS
    /\ (forall entry, In entry EVENT_KEYWORDS ->
          event_score text entry <= event_score text (event_type, keywords))
    /\ 1 <= Z.of_nat (List.length (found_in text keywords))
         <= Z.of_nat (List.length keywords)
    /\ _detect_event_type text
       = (event_type, found_in text keywords,
          floor_confidence (Z.of_nat (List.length (found_in text keywords)))
                           (Z.of_nat (List.length keywords))).
Proof.
  intros Hm.
  destruct (best_entry_spec text) as [Hin Hmax].
  destruct (best_entry text) as [event_type keywords] eqn:Ebest.
  exists event_type, keywords.
  assert (Hpos : 1 <= event_score text (event_type, keywords)).
  { destruct Hm as (entry & keyword & He & Hk & Hc).
    pose proof (event_score_positive text entry keyword Hk Hc).
    pose proof (Hmax entry He). lia. }
  pose proof (event_score_bounds text (event_type, keywords)) as Hb.
  unfold event_score in Hpos, Hb. simpl in Hpos, Hb.
  repeat split; try assumption; try lia.
  unfold _detect_event_type.
  rewrite (matches_keyword_truthy text Hm). simpl negb. cbv iota.
  destruct (List.forallb (fun e => event_score text e =? 0) EVENT_KEYWORDS) eqn:Eall.
  { apply all_scores_zero in Eall. contradiction. }
  rewrite Ebest. cbv zeta. unfold event_score. simpl fst. simpl snd.
  rewrite confidence_of_floor; [reflexivity| |lia].
  exact (table_sizes (event_type, keywords) Hin).
Qed.

(** ** The classifier *)

(** C1, as amended.  On a text in which some keyword occurs, the classifier
    returns the first category with the most keywords found, the keywords of
    that category found in the text, and the confidence
    [min(floor(matched_count * 100 / total_keywords) + 20, 100)]: the
    percentage is truncated, not rounded. *)
Theorem detect_event_type_confidence (text : string) :
  matches_keyword text ->
  exists event_type keywords,
    In (event_type, keywords) EVENT_KEYWORDS
    /\ (forall entry, In entry EVENT_KEYWORDS ->
          event_score text entry <= event_score text (event_type, keywords))
    /\ let matched_count := Z.of_nat (List.length (found_in text keywords)) in
       let total_keywords := Z.of_nat (List.length keywords) in
       _detect_event_type text
       = (event_type, found_in text keywords,
          Z.min (matched_count * 100 / total_keywords + 20) 100).
Proof.
  intros Hm.
  destruct (detect_event_type_matched text Hm)
    as (event_type & keywords & Hin & Hmax & _ & Heq).
  exists event_type, keywords. repeat split; assumption.
Qed.

Lemma detect_event_type_confidence_witness :
  matches_keyword "игра в мяч"
  /\ exists event_type keywords,
       In (event_type, keywords) EVENT_KEYWORDS
       /\ (forall entry, In entry EVENT_KEYWORDS ->
             event_score "игра в мяч" entry
             <= event_score "игра в мяч" (event_type, keywords))
       /\ let matched_count := Z.of_nat (List.length (found_in "игра в мяч" keywords)) in
          let total_keywords := Z.of_nat (List.length keywords) in
          _detect_event_type "игра в мяч"
          = (event_type, found_in "игра в мяч" keywords,
             Z.min (matched_count * 100 / total_keywords + 20) 100).
Proof.
  assert (H : matches_keyword "игра в мяч").
  { exists ("sports", ["игра"; "матч"; "спорт"; "команда"; "победа"; "проигрыш"]), "игра".
    split; [right; left; reflexivity|].
    split; [left; reflexivity | vm_compute; reflexivity]. }
  split; [exact H | exact (detect_event_type_confidence "игра в мяч" H)].
Defined.

(** C1, as stated, fails: one of the six sports keywords gives 16.67 percent,
    which the code truncates to 16 (confidence 36) and the stated formula
    rounds to 17 (confidence 37). *)
Lemma detect_event_type_confidence_not_rounded :
  _detect_event_type "игра" = ("sports", ["игра"], 36)
  /\ In ("sports", ["игра"; "матч"; "спорт"; "команда"; "победа"; "проигрыш"])
        EVENT_KEYWORDS
  /\ spec_confidence 1 6 = 37.
Proof.
  split; [vm_compute; reflexivity|].
  split; [right; left; reflexivity | vm_compute; reflexivity].
Qed.

(** ** The mood percentage *)

Lemma count_nonneg {A : Type} (p : A -> bool) (l : list A) : 0 <= count p l.
Proof. unfold count. lia. Qed.

(** C5.  With no emoji of the three sets the percentage is 50, as stated.
    Otherwise the code truncates a product of binary64 numbers, which can
    fall just below the exact value: of 25 observations with 14 positive,
    1 neutral and 10 negative emoji the exact percentage is 58, and the code
    computes [14.5 / 25 * 100 = 57.99999999999999] and returns 57. *)
Theorem mood_percentage_truncates_low :
  (forall moods,
      positive_count moods + negative_count moods + neutral_count moods = 0 ->
      _calculate_mood_percentage moods = 50)
  /\ positive_count Sample.twenty_five = 14
  /\ negative_count Sample.twenty_five = 10
  /\ neutral_count Sample.twenty_five = 1
  /\ _calculate_mood_percentage Sample.twenty_five = 57
  /\ spec_mood_percentage 14 10 1 = 58.
Proof.
  split.
  - intros moods H. unfold _calculate_mood_percentage.
    destruct moods; [reflexivity|]. rewrite H. reflexivity.
  - repeat split; vm_compute; reflexivity.
Qed.

Section AnalyzerProperties.

Context {rt : Runtime}.

(** ** Events and keywords *)

Lemma event_of_cluster_matched (cluster : Cluster.t) :
  matches_keyword (all_text cluster) ->
  exists ev, event_of_cluster cluster = Some ev /\ 36 <= Event.confidence ev <= 100.
Proof.
  intros Hm.
  destruct (detect_event_type_matched _ Hm)
    as (event_type & keywords & Hin & _ & Hlen & Heq).
  pose proof (floor_confidence_bounds _ _ (table_sizes _ Hin) Hlen) as Hc.
  simpl snd in Hc.
  unfold event_of_cluster. rewrite Heq.
  destruct (Z.leb_spec 30
              (floor_confidence (Z.of_nat (List.length (found_in (all_text cluster) keywords)))
                                (Z.of_nat (List.length keywords)))) as [_|Hlt]; [|lia].
  eexists. split; [reflexivity|]. simpl. exact Hc.
Qed.

Lemma event_of_cluster_unmatched (cluster : Cluster.t) :
  ~ matches_keyword (all_text cluster) -> event_of_cluster cluster = None.
Proof.
  intros Hno. unfold event_of_cluster.
  rewrite (detect_event_type_unmatched _ Hno). reflexivity.
Qed.

Lemma forallb_false {A : Type} (f : A -> bool) (l : list A) :
  List.forallb f l = false -> exists x, In x l /\ f x = false.
Proof.
  induction l as [|x l IH]; simpl; [discriminate|].
  destruct (f x) eqn:E; simpl.
  - intros H. destruct (IH H) as (y & Hy & Hf). exists y. auto.
  - intros _. exists x. auto.
Qed.

Lemma matches_keyword_dec (text : string) :
  matches_keyword text \/ ~ matches_keyword text.
Proof.
  destruct (List.forallb (fun e => event_score text e =? 0) EVENT_KEYWORDS) eqn:E.
  - right. apply all_scores_zero. exact E.
  - left. apply forallb_false in E as (entry & He & Hs).
    apply Z.eqb_neq in Hs. unfold event_score in Hs.
    destruct (found_in text (snd entry)) as [|keyword rest] eqn:Ef; [simpl in Hs; lia|].
    assert (Hin : In keyword (found_in text (snd entry))) by (rewrite Ef; left; reflexivity).
    unfold found_in in Hin. apply List.filter_In in Hin as [Hin Hc].
    exists entry, keyword. auto.
Qed.

(** C10.  A cluster yields an event exactly when some keyword of some
    category occurs in its text, and then the confidence is at least 36: the
    filter at 30 never drops a cluster with a keyword. *)
Theorem event_emitted_iff_keyword (cluster : Cluster.t) :
  ((exists ev, event_of_cluster cluster = Some ev)
   <-> matches_keyword (all_text cluster))
  /\ (forall ev, event_of_cluster cluster = Some ev -> 36 <= Event.confidence ev)
  /\ (forall event_type keywords confidence,
        matches_keyword (all_text cluster) ->
        _detect_event_type (all_text cluster) = (event_type, keywords, confidence) ->
        36 <= confidence).
Proof.
  split; [split|split].
  - intros (ev & Hev).
    destruct (matches_keyword_dec (all_text cluster)) as [Hm|Hno]; [exact Hm|].
    rewrite (event_of_cluster_unmatched cluster Hno) in Hev. discriminate.
  - intros Hm. destruct (event_of_cluster_matched cluster Hm) as (ev & Hev & _).
    exists ev. exact Hev.
  - intros ev Hev.
    destruct (matches_keyword_dec (all_text cluster)) as [Hm|Hno].
    + destruct (event_of_cluster_matched cluster Hm) as (ev' & Hev' & Hc).
      rewrite Hev in Hev'. injection Hev' as <-. lia.
    + rewrite (event_of_cluster_unmatched cluster Hno) in Hev. discriminate.
  - intros event_type keywords confidence Hm Heq.
    destruct (detect_event_type_matched _ Hm) as (ty & kws & Hin & _ & Hlen & Heq').
    rewrite Heq in Heq'. injection Heq' as _ _ ->.
    apply (floor_confidence_bounds _ _ (table_sizes _ Hin) Hlen).
Qed.

(** The loop of [detect_events] appends the events of the clusters, in order. *)
Lemma events_of_flat_map (clusters : list Cluster.t) :
  events_of clusters
  = List.flat_map (fun c => match event_of_cluster c with
                            | Some e => [e]
                            | None => []
                            end) clusters.
Proof.
  unfold events_of.
  enough (H : forall acc,
             List.fold_left
               (fun events cluster =>
                  match event_of_cluster cluster with
                  | Some e => events ++ [e]
                  | None => events
                  end) clusters acc
             = acc ++ List.flat_map (fun c => match event_of_cluster c with
                                              | Some e => [e]
                                              | None => []
                                              end) clusters)
    by exact (H []).
  induction clusters as [|c cs IH]; intros acc; simpl.
  - rewrite List.app_nil_r. reflexivity.
  - rewrite IH. destruct (event_of_cluster c); simpl.
    + rewrite <- List.app_assoc. reflexivity.
    + reflexivity.
Qed.

Lemma event_of_cluster_confidence (cluster : Cluster.t) (ev : Event.t) :
  event_of_cluster cluster = Some ev -> 30 <= Event.confidence ev.
Proof.
  unfold event_of_cluster.
  destruct (_detect_event_type (all_text cluster)) as [[event_type keywords] confidence].
  destruct (Z.leb_spec 30 confidence) as [Hle|Hlt]; [|discriminate].
  intros Hev. injection Hev as <-. simpl. exact Hle.
Qed.

Lemma no_text_all_text (cluster : Cluster.t) :
  no_text cluster -> all_text cluster = "".
Proof.
  unfold no_text, all_text. generalize (Cluster.moods cluster).
  intros l H. induction l as [|m l IH]; simpl; [reflexivity|].
  rewrite (H m) by (left; reflexivity). apply IH.
  intros m' Hm'. apply H. right. exact Hm'.
Qed.

(** C7.  Every event returned has confidence at least 30, the events are
    those of the clusters in order, and a cluster none of whose members has
    a non-empty text is classified "unknown" with confidence 0 and no
    keywords and contributes no event. *)
Theorem detect_events_confidence_floor (moods : list Mood.t) (events : list Event.t) :
  detect_events moods = Ok events ->
  (forall ev, In ev events -> 30 <= Event.confidence ev)
  /\ exists clusters,
       cluster_moods moods = Ok clusters
       /\ events = List.flat_map (fun c => match event_of_cluster c with
                                           | Some e => [e]
                                           | None => []
                                           end) clusters
       /\ forall c, In c clusters -> no_text c ->
            _detect_event_type (all_text c) = ("unknown", [], 0)
            /\ event_of_cluster c = None.
Proof.
  unfold detect_events. intros H.
  apply bind_Ok in H as (clusters & Hc & He). injection He as <-.
  rewrite events_of_flat_map. split.
  - intros ev Hin. apply List.in_flat_map in Hin as (c & _ & Hin).
    destruct (event_of_cluster c) as [e|] eqn:E; [|destruct Hin].
    destruct Hin as [<-|[]]. exact (event_of_cluster_confidence c e E).
  - exists clusters. split; [exact Hc|]. split; [reflexivity|].
    intros c _ Hno. unfold event_of_cluster.
    rewrite (no_text_all_text c Hno). split; reflexivity.
Qed.

(** ** Clustering *)

Lemma scan_step_seeded (seed : Mood.t) (st st' : list Mood.t * gset Z)
  (other : Mood.t) :
  seeded_by seed (fst st) -> scan_step seed st other = Ok st' ->
  seeded_by seed (fst st').
Proof.
  intros (others & Hc & Hall). unfold scan_step.
  destruct (bool_decide (Mood.id other ∈ snd st)).
  - intros H. injection H as <-. exists others. auto.
  - intros H. apply bind_Ok in H as (ok & Hok & H).
    destruct ok; injection H as <-.
    + exists (others ++ [other]). simpl. split.
      * rewrite Hc. reflexivity.
      * apply List.Forall_app. split; [exact Hall|]. constructor; [exact Hok|constructor].
    + exists others. auto.
Qed.

Lemma seed_step_well_formed (sorted_moods : list Mood.t)
  (st st' : list Cluster.t * gset Z) (mood : Mood.t) :
  Forall well_formed (fst st) -> seed_step sorted_moods st mood = Ok st' ->
  Forall well_formed (fst st').
Proof.
  intros Hall. unfold seed_step.
  destruct (bool_decide (Mood.id mood ∈ snd st)).
  - intros H. injection H as <-. exact Hall.
  - intros H. apply bind_Ok in H as (scanned & Hscan & H).
    assert (Hseed : seeded_by mood (fst scanned)).
    { apply (foldM_invariant (fun s => seeded_by mood (fst s)) (scan_step mood))
        with (l := sorted_moods) (s := ([mood], {[ Mood.id mood ]} ∪ snd st)).
      - intros s x s'. apply scan_step_seeded.
      - exists []. split; [reflexivity|constructor].
      - exact Hscan. }
    destruct (Z.leb_spec MIN_CLUSTER_SIZE (Z.of_nat (List.length (fst scanned))));
      injection H as <-; simpl.
    + apply List.Forall_app. split; [exact Hall|].
      constructor; [|constructor]. split; simpl; [assumption|].
      exists mood. exact Hseed.
    + exact Hall.
Qed.

Lemma cluster_moods_well_formed (moods : list Mood.t) (clusters : list Cluster.t) :
  cluster_moods moods = Ok clusters -> Forall well_formed clusters.
Proof.
  unfold cluster_moods. intros H. apply bind_Ok in H as (final & Hrun & H).
  injection H as <-.
  apply (foldM_invariant (fun s => Forall well_formed (fst s))
           (seed_step (sorted_desc Mood.timestamp moods)))
    with (l := sorted_desc Mood.timestamp moods) (s := ([], ∅)).
  - intros s x s'. apply seed_step_well_formed.
  - constructor.
  - exact Hrun.
Qed.

Lemma belongs_true (seed other : Mood.t) :
  belongs seed other = Ok true ->
  exists distance,
    distance_between seed other = Ok distance
    /\ (distance <=? CLUSTER_RADIUS_KM)%float = true
    /\ (time_diff seed other <=? float_of_int TIME_WINDOW_HOURS)%float = true.
Proof.
  unfold belongs. intros H. apply bind_Ok in H as (distance & Hd & H).
  injection H as H. apply andb_true_iff in H as [Ht Hr].
  exists distance. auto.
Qed.

Lemma time_diff_self (mood : Mood.t) :
  (time_diff mood mood <=? float_of_int TIME_WINDOW_HOURS)%float = true.
Proof.
  unfold time_diff. rewrite Z.sub_diag. vm_compute. reflexivity.
Qed.

(** C6.  Every cluster returned has at least [MIN_CLUSTER_SIZE] = 5
    members. *)
Theorem cluster_moods_min_size (moods : list Mood.t) (clusters : list Cluster.t)
  (cluster : Cluster.t) :
  cluster_moods moods = Ok clusters -> In cluster clusters ->
  5 <= Z.of_nat (List.length (Cluster.moods cluster)).
Proof.
  intros Hrun Hin. apply cluster_moods_well_formed in Hrun.
  rewrite List.Forall_forall in Hrun. destruct (Hrun cluster Hin) as [Hsize _].
  exact Hsize.
Qed.

(** C4.  The members of a returned cluster are its seed followed by the
    observations admitted to it; every member is within the time window of
    4 hours of the seed, and every admitted observation is within the radius
    of 1 km of the seed by [_calculate_distance].  Both tests compare with
    the seed, whatever the other members are. *)
Theorem cluster_members_near_seed (moods : list Mood.t) (clusters : list Cluster.t)
  (cluster : Cluster.t) :
  cluster_moods moods = Ok clusters -> In cluster clusters ->
  exists seed others,
    Cluster.moods cluster = seed :: others
    /\ (forall member, In member (Cluster.moods cluster) ->
          (time_diff seed member <=? float_of_int TIME_WINDOW_HOURS)%float = true)
    /\ (forall other, In other others ->
          exists distance,
            distance_between seed other = Ok distance
            /\ (distance <=? CLUSTER_RADIUS_KM)%float = true).
Proof.
  intros Hrun Hin. apply cluster_moods_well_formed in Hrun.
  rewrite List.Forall_forall in Hrun.
  destruct (Hrun cluster Hin) as [_ (seed & others & Heq & Hall)].
  rewrite List.Forall_forall in Hall.
  exists seed, others. split; [exact Heq|]. split.
  - intros member Hm. rewrite Heq in Hm. destruct Hm as [<-|Hm].
    + apply time_diff_self.
    + destruct (belongs_true seed member (Hall member Hm)) as (d & _ & _ & Ht).
      exact Ht.
  - intros other Ho.
    destruct (belongs_true seed other (Hall other Ho)) as (d & Hd & Hr & _).
    exists d. auto.
Qed.

(** ** Area aggregation *)

Lemma area_scan_none (lat lng radius_km : float) (moods acc : list Mood.t) :
  (forall mood, In mood moods ->
     exists distance,
       _calculate_distance lat lng (Mood.latitude mood) (Mood.longitude mood)
       = Ok distance
       /\ (distance <=? radius_km)%float = false) ->
  foldM (area_step lat lng radius_km) moods acc = Ok acc.
Proof.
  induction moods as [|mood moods IH]; intros Hfar; simpl; [reflexivity|].
  destruct (Hfar mood) as (distance & Hd & Hout); [left; reflexivity|].
  unfold area_step at 1. rewrite Hd. simpl. rewrite Hout.
  apply IH. intros mood' Hin. apply Hfar. right. exact Hin.
Qed.

End AnalyzerProperties.

(** ** Trends *)

(** The trend computation raises exactly when the bounds of a period cannot
    be computed, and otherwise reports on the six periods. *)
Lemma get_mood_trends_bounds (now : Z) (moods : list Mood.t) (hours : Z) :
  get_mood_trends now moods hours
  = let* bounds := all_bounds now hours in
    let periods := List.map (period_summary moods) bounds in
    Ok {| TrendReport.time_periods := List.map fst periods;
          TrendReport.mood_percentages := List.map snd periods;
          TrendReport.emoji_counts := counter (List.map Mood.emoji moods);
          TrendReport.trend_direction := trend_direction_of (List.map snd periods) |}.
Proof.
  unfold get_mood_trends, all_bounds.
  destruct (truediv_checked hours 6) as [period_hours|e]; [|reflexivity].
  rewrite !bind_ret. rewrite mapM_post.
  destruct (mapM (period_bounds now period_hours) [0; 1; 2; 3; 4; 5]); reflexivity.
Qed.

Lemma all_bounds_length (now hours : Z) (bounds : list (Z * Z)) :
  all_bounds now hours = Ok bounds -> List.length bounds = 6%nat.
Proof.
  unfold all_bounds. intros H. apply bind_Ok in H as (period_hours & _ & H).
  apply mapM_length in H. exact H.
Qed.

Lemma period_summary_empty (moods : list Mood.t) (bounds : Z * Z) :
  period_moods moods bounds = [] -> snd (period_summary moods bounds) = 0.
Proof.
  intros H. unfold period_summary. rewrite H. reflexivity.
Qed.

Lemma sub_timedelta_in_range (d delta : Z) :
  0 <= d - delta <= Datetime.max_datetime ->
  Datetime.sub_timedelta d delta = Ok (d - delta).
Proof.
  intros H. unfold Datetime.sub_timedelta.
  destruct (Z.leb_spec 0 (d - delta)); [|lia].
  destruct (Z.leb_spec (d - delta) Datetime.max_datetime); [|lia].
  reflexivity.
Qed.

Lemma four_hours : 4 * Datetime.us_per_hour = 14400000000.
Proof. reflexivity. Qed.

Lemma one_day : Datetime.us_per_day = 6 * 14400000000.
Proof. reflexivity. Qed.

(** [timedelta(hours=k * 4.0)] for the multiples met with the default span. *)
Lemma timedelta_four_hours (k : Z) :
  0 <= k <= 6 ->
  Datetime.timedelta_hours (float_of_int k * 4)%float = Ok (k * 14400000000).
Proof.
  intros Hk.
  assert (Hcases : k = 0 \/ k = 1 \/ k = 2 \/ k = 3 \/ k = 4 \/ k = 5 \/ k = 6) by lia.
  repeat (destruct Hcases as [-> | Hcases]; [vm_compute; reflexivity|]).
  subst k. vm_compute. reflexivity.
Qed.

Lemma period_bounds_four_hours (now i : Z) :
  Datetime.us_per_day <= now <= Datetime.max_datetime -> 0 <= i <= 5 ->
  period_bounds now 4%float i
  = Ok (now - (i + 1) * (4 * Datetime.us_per_hour),
        now - i * (4 * Datetime.us_per_hour)).
Proof.
  intros Hnow Hi. unfold period_bounds. rewrite four_hours. rewrite one_day in Hnow.
  rewrite (timedelta_four_hours i) by lia. rewrite bind_ret.
  rewrite sub_timedelta_in_range
    by (generalize dependent Datetime.max_datetime; intros; nia).
  rewrite bind_ret.
  rewrite (timedelta_four_hours (i + 1)) by lia. rewrite bind_ret.
  rewrite sub_timedelta_in_range
    by (generalize dependent Datetime.max_datetime; intros; nia).
  reflexivity.
Qed.

(** With the default span of 24 hours the bounds are computed whenever the
    clock reads a time from the second day of the calendar on. *)
Lemma all_bounds_default (now : Z) :
  Datetime.us_per_day <= now <= Datetime.max_datetime ->
  all_bounds now 24
  = Ok (List.map (fun i => (now - (i + 1) * (4 * Datetime.us_per_hour),
                            now - i * (4 * Datetime.us_per_hour)))
                 [0; 1; 2; 3; 4; 5]).
Proof.
  intros Hnow. unfold all_bounds.
  replace (truediv_checked 24 6) with (Ok 4%float) by (vm_compute; reflexivity).
  rewrite bind_ret. cbn [mapM List.map].
  rewrite !(period_bounds_four_hours now) by (assumption || lia).
  reflexivity.
Qed.

(** C9, as amended.  Whenever the bounds of the six periods are
    representable datetimes, the trend computation returns six labels and
    six percentages, 0 for every period with no observation; on the empty
    list the percentages are six zeros and the direction is "stable". *)
Theorem get_mood_trends_six_periods (now : Z) (moods : list Mood.t) (hours : Z)
  (bounds : list (Z * Z)) :
  all_bounds now hours = Ok bounds ->
  exists report,
    get_mood_trends now moods hours = Ok report
    /\ List.length (TrendReport.time_periods report) = 6%nat
    /\ List.length (TrendReport.mood_percentages report) = 6%nat
    /\ (forall i b, nth_error bounds i = Some b -> period_moods moods b = [] ->
          nth_error (TrendReport.mood_percentages report) i = Some 0)
    /\ (moods = [] ->
        TrendReport.mood_percentages report = [0; 0; 0; 0; 0; 0]
        /\ TrendReport.trend_direction report = "stable").
Proof.
  intros Hb. rewrite get_mood_trends_bounds, Hb. simpl bind.
  pose proof (all_bounds_length now hours bounds Hb) as Hlen.
  eexists. split; [reflexivity|]. simpl.
  rewrite !List.length_map. repeat split; try exact Hlen.
  - intros i b Hi Hempty. rewrite List.map_map.
    rewrite (List.map_nth_error _ _ _ Hi).
    rewrite (period_summary_empty moods b Hempty). reflexivity.
  - subst moods.
    destruct bounds as [|b0 [|b1 [|b2 [|b3 [|b4 [|b5 [|b6 bs]]]]]]];
      try discriminate Hlen. reflexivity.
  - subst moods.
    destruct bounds as [|b0 [|b1 [|b2 [|b3 [|b4 [|b5 [|b6 bs]]]]]]];
      try discriminate Hlen. reflexivity.
Qed.

(** C3, as amended.  The direction compares the percentages of the two most
    recent periods, an empty period counting as 0: "up" if the most recent
    is greater, "down" if it is smaller, "stable" if they are equal, which
    is the case when neither of the two periods contains an observation. *)
Theorem trend_direction_two_most_recent (now : Z) (moods : list Mood.t) (hours : Z)
  (report : TrendReport.t) :
  get_mood_trends now moods hours = Ok report ->
  exists latest previous older b0 b1 bs,
    all_bounds now hours = Ok (b0 :: b1 :: bs)
    /\ TrendReport.mood_percentages report = latest :: previous :: older
    /\ TrendReport.trend_direction report
       = (if previous <? latest then "up"
          else if latest <? previous then "down" else "stable")
    /\ (period_moods moods b0 = [] -> period_moods moods b1 = [] ->
        TrendReport.trend_direction report = "stable").
Proof.
  rewrite get_mood_trends_bounds. intros H.
  apply bind_Ok in H as (bounds & Hb & H). injection H as <-.
  pose proof (all_bounds_length now hours bounds Hb) as Hlen.
  destruct bounds as [|b0 [|b1 bs]]; try discriminate Hlen.
  exists (snd (period_summary moods b0)), (snd (period_summary moods b1)),
    (List.map snd (List.map (period_summary moods) bs)), b0, b1, bs.
  assert (Hdir : forall latest previous older,
            trend_direction_of (latest :: previous :: older)
            = (if previous <? latest then "up"
               else if latest <? previous then "down" else "stable")).
  { intros latest previous older. unfold trend_direction_of.
    destruct (Z.leb_spec 2 (Z.of_nat (List.length (latest :: previous :: older))))
      as [_|Hlt]; [reflexivity|].
    cbn [List.length] in Hlt. lia. }
  split; [exact Hb|]. split; [reflexivity|].
  cbn [TrendReport.trend_direction List.map]. rewrite Hdir.
  split; [reflexivity|].
  intros H0 H1.
  rewrite (period_summary_empty moods b0 H0), (period_summary_empty moods b1 H1).
  reflexivity.
Qed.

(** ** Invocations *)

Lemma sub_timedelta_value (d delta r : Z) :
  Datetime.sub_timedelta d delta = Ok r -> r = d - delta.
Proof.
  unfold Datetime.sub_timedelta. cbv zeta.
  destruct ((0 <=? d - delta) && (d - delta <=? Datetime.max_datetime));
    intros H; [injection H as <-; reflexivity | discriminate H].
Qed.

(** The span of a period does not depend on the clock: read [d] later, both
    bounds are [d] later. *)
Lemma period_bounds_shift (now1 now2 : Z) (period_hours : float) (i : Z)
  (b1 b2 : Z * Z) :
  period_bounds now1 period_hours i = Ok b1 ->
  period_bounds now2 period_hours i = Ok b2 ->
  b2 = shift (now2 - now1) b1.
Proof.
  unfold period_bounds. intros H1 H2.
  apply bind_Ok in H1 as (d_end & Hde & H1). apply bind_Ok in H1 as (e1 & He1 & H1).
  apply bind_Ok in H1 as (d_start & Hds & H1). apply bind_Ok in H1 as (s1 & Hs1 & H1).
  injection H1 as <-.
  rewrite Hde, bind_ret in H2. apply bind_Ok in H2 as (e2 & He2 & H2).
  rewrite Hds, bind_ret in H2. apply bind_Ok in H2 as (s2 & Hs2 & H2).
  injection H2 as <-.
  apply sub_timedelta_value in He1, He2, Hs1, Hs2. subst e1 e2 s1 s2.
  unfold shift. cbn [fst snd]. f_equal; lia.
Qed.

Lemma mapM_related {A B : Type} (f g : A -> res B) (h : B -> B) (l : list A)
  (ys zs : list B) :
  (forall x y z, f x = Ok y -> g x = Ok z -> z = h y) ->
  mapM f l = Ok ys -> mapM g l = Ok zs -> zs = List.map h ys.
Proof.
  intros Hrel. revert ys zs.
  induction l as [|x l IH]; cbn [mapM]; intros ys zs Hf Hg.
  - injection Hf as <-. injection Hg as <-. reflexivity.
  - apply bind_Ok in Hf as (y & Hy & Hf). apply bind_Ok in Hf as (ys' & Hys & Hf).
    apply bind_Ok in Hg as (z & Hz & Hg). apply bind_Ok in Hg as (zs' & Hzs & Hg).
    injection Hf as <-. injection Hg as <-. cbn [List.map].
    rewrite (Hrel x y z Hy Hz), (IH ys' zs' Hys Hzs). reflexivity.
Qed.

Lemma all_bounds_shift (now1 now2 hours : Z) (bounds1 bounds2 : list (Z * Z)) :
  all_bounds now1 hours = Ok bounds1 ->
  all_bounds now2 hours = Ok bounds2 ->
  bounds2 = List.map (shift (now2 - now1)) bounds1.
Proof.
  unfold all_bounds. intros H1 H2.
  apply bind_Ok in H1 as (period_hours & Hp & H1). rewrite Hp, bind_ret in H2.
  exact (mapM_related _ _ _ _ _ _
           (fun x y z => period_bounds_shift now1 now2 period_hours x y z) H1 H2).
Qed.

Lemma in_period_shift (d : Z) (bounds : Z * Z) (mood : Mood.t) :
  0 <= d -> crosses d bounds mood = false ->
  in_period (shift d bounds) mood = in_period bounds mood.
Proof.
  unfold in_period, crosses, shift. destruct bounds as [s e]. cbn [fst snd].
  generalize (Mood.timestamp mood). intros t Hd.
  destruct (Z.leb_spec (s + d) t), (Z.leb_spec t (e + d)), (Z.leb_spec s t),
    (Z.leb_spec t e), (Z.ltb_spec t (s + d)), (Z.ltb_spec e t);
    cbn [andb orb]; intros Hc; try reflexivity; try discriminate Hc; lia.
Qed.

Lemma no_crossing_spec (moods : list Mood.t) (bounds : list (Z * Z)) (d : Z)
  (b : Z * Z) (mood : Mood.t) :
  no_crossing moods bounds d = true -> In b bounds -> In mood moods ->
  crosses d b mood = false.
Proof.
  unfold no_crossing. intros H Hb Hm.
  rewrite List.forallb_forall in H. specialize (H b Hb).
  rewrite List.forallb_forall in H. specialize (H mood Hm).
  apply negb_true_iff in H. exact H.
Qed.

Lemma period_summary_shift (moods : list Mood.t) (d : Z) (bounds : Z * Z) :
  0 <= d ->
  (forall mood, In mood moods -> crosses d bounds mood = false) ->
  snd (period_summary moods (shift d bounds)) = snd (period_summary moods bounds).
Proof.
  intros Hd Hc. unfold period_summary. cbv zeta. cbn [snd].
  replace (period_moods moods (shift d bounds)) with (period_moods moods bounds);
    [reflexivity|].
  unfold period_moods. apply List.filter_ext_in. intros mood Hin.
  symmetry. apply in_period_shift; auto.
Qed.

(** C2, as amended.  Clustering, event detection and area aggregation depend
    on their arguments only: two invocations on the same snapshot return the
    same output.  The trend computation also reads the clock.  Two
    invocations at the same clock reading return the same output.  When the
    clock has advanced by [d] between two invocations that both compute
    their periods, every period bound of the second is [d] later and the
    emoji counts are the same; the percentages and the direction are the
    same too when no observation changes period, that is when none is
    stamped in the first [d] of a period or in the [d] that follow one. *)
Theorem invoke_deterministic {rt : Runtime} (op : component) (moods : list Mood.t)
  (now1 now2 : Z) :
  (is_trend op = false -> invoke now1 op moods = invoke now2 op moods)
  /\ (now1 = now2 -> invoke now1 op moods = invoke now2 op moods)
  /\ (forall hours bounds1 bounds2,
        op = TrendComputation hours ->
        now1 <= now2 ->
        all_bounds now1 hours = Ok bounds1 ->
        all_bounds now2 hours = Ok bounds2 ->
        exists report1 report2,
          invoke now1 op moods = Trends (Ok report1)
          /\ invoke now2 op moods = Trends (Ok report2)
          /\ bounds2 = List.map (shift (now2 - now1)) bounds1
          /\ TrendReport.emoji_counts report1 = TrendReport.emoji_counts report2
          /\ (no_crossing moods bounds1 (now2 - now1) = true ->
              TrendReport.mood_percentages report1
              = TrendReport.mood_percentages report2
              /\ TrendReport.trend_direction report1
                 = TrendReport.trend_direction report2)).
Proof.
  split; [destruct op; cbn [is_trend invoke]; intros H;
          first [reflexivity | discriminate H]|].
  split; [intros ->; reflexivity|].
  intros hours bounds1 bounds2 -> Hle H1 H2. cbn [invoke].
  rewrite !get_mood_trends_bounds, H1, H2, !bind_ret. cbv zeta.
  do 2 eexists. split; [reflexivity|]. split; [reflexivity|].
  pose proof (all_bounds_shift now1 now2 hours bounds1 bounds2 H1 H2) as Hshift.
  split; [exact Hshift|]. split; [reflexivity|].
  intros Hc. cbn [TrendReport.mood_percentages TrendReport.trend_direction].
  assert (Hsame : List.map snd (List.map (period_summary moods) bounds1)
                  = List.map snd (List.map (period_summary moods) bounds2)).
  { rewrite Hshift, !List.map_map. apply List.map_ext_in. intros b Hb. symmetry.
    apply period_summary_shift; [lia|].
    intros mood Hm. exact (no_crossing_spec moods bounds1 _ b mood Hc Hb Hm). }
  rewrite Hsame. split; reflexivity.
Qed.

(** ** The properties on the sample inputs *)

(** C2, as stated, fails: the same snapshot, one observation, gives the
    direction "up" when the clock reads an hour after the observation and
    "down" when it reads five hours after it. *)
Lemma trends_depend_on_clock :
  exists report1 report2,
    @invoke Sample.runtime Sample.now (TrendComputation 24) Sample.one_hour_ago
    = Trends (Ok report1)
    /\ @invoke Sample.runtime (Sample.now + 4 * Datetime.us_per_hour)
         (TrendComputation 24) Sample.one_hour_ago
       = Trends (Ok report2)
    /\ TrendReport.mood_percentages report1 = [100; 0; 0; 0; 0; 0]
    /\ TrendReport.mood_percentages report2 = [0; 100; 0; 0; 0; 0]
    /\ TrendReport.trend_direction report1 = "up"
    /\ TrendReport.trend_direction report2 = "down".
Proof.
  do 2 eexists.
  split; [vm_compute; reflexivity|].
  split; [vm_compute; reflexivity|].
  repeat split.
Qed.

Lemma invoke_deterministic_witness :
  Sample.now <= Sample.now + Datetime.us_per_minute
  /\ exists bounds1 report1 report2,
       all_bounds Sample.now 24 = Ok bounds1
       /\ no_crossing Sample.one_hour_ago bounds1
            (Sample.now + Datetime.us_per_minute - Sample.now) = true
       /\ @invoke Sample.runtime Sample.now (TrendComputation 24) Sample.one_hour_ago
          = Trends (Ok report1)
       /\ @invoke Sample.runtime (Sample.now + Datetime.us_per_minute)
            (TrendComputation 24) Sample.one_hour_ago
          = Trends (Ok report2)
       /\ TrendReport.emoji_counts report1 = TrendReport.emoji_counts report2
       /\ TrendReport.mood_percentages report1 = TrendReport.mood_percentages report2
       /\ TrendReport.trend_direction report1 = TrendReport.trend_direction report2.
Proof.
  assert (Hle : Sample.now <= Sample.now + Datetime.us_per_minute)
    by (vm_compute; discriminate).
  split; [exact Hle|].
  destruct (all_bounds Sample.now 24) as [bounds1|e1] eqn:E1;
    [|vm_compute in E1; discriminate E1].
  destruct (all_bounds (Sample.now + Datetime.us_per_minute) 24) as [bounds2|e2] eqn:E2;
    [|vm_compute in E2; discriminate E2].
  assert (Hc : no_crossing Sample.one_hour_ago bounds1
                 (Sample.now + Datetime.us_per_minute - Sample.now) = true).
  { vm_compute in E1. injection E1 as <-. vm_compute. reflexivity. }
  destruct (proj2 (proj2 (@invoke_deterministic Sample.runtime (TrendComputation 24)
                            Sample.one_hour_ago Sample.now
                            (Sample.now + Datetime.us_per_minute)))
              24 bounds1 bounds2 eq_refl Hle E1 E2)
    as (report1 & report2 & Hr1 & Hr2 & _ & Hcounts & Hrest).
  destruct (Hrest Hc) as [Hp Hd].
  exists bounds1, report1, report2. repeat split; assumption.
Defined.

(** C3, as stated, fails: with one observation only one of the six periods
    has data, and the direction is "up", not "stable". *)
Lemma one_period_with_data_is_up :
  exists report bounds,
    get_mood_trends Sample.now Sample.one_hour_ago 24 = Ok report
    /\ all_bounds Sample.now 24 = Ok bounds
    /\ periods_with_data Sample.one_hour_ago bounds = 1%nat
    /\ TrendReport.mood_percentages report = [100; 0; 0; 0; 0; 0]
    /\ TrendReport.trend_direction report = "up".
Proof.
  do 2 eexists.
  split; [vm_compute; reflexivity|].
  split; [vm_compute; reflexivity|].
  repeat split.
Qed.

Lemma trend_direction_two_most_recent_witness :
  exists report,
    get_mood_trends Sample.now Sample.one_hour_ago 24 = Ok report
    /\ exists latest previous older b0 b1 bs,
         all_bounds Sample.now 24 = Ok (b0 :: b1 :: bs)
         /\ TrendReport.mood_percentages report = latest :: previous :: older
         /\ TrendReport.trend_direction report
            = (if previous <? latest then "up"
               else if latest <? previous then "down" else "stable")
         /\ (period_moods Sample.one_hour_ago b0 = [] ->
             period_moods Sample.one_hour_ago b1 = [] ->
             TrendReport.trend_direction report = "stable").
Proof.
  destruct (get_mood_trends Sample.now Sample.one_hour_ago 24) as [report|e] eqn:E.
  - exists report. split; [reflexivity|].
    exact (trend_direction_two_most_recent Sample.now Sample.one_hour_ago 24 report E).
  - vm_compute in E. discriminate E.
Defined.

(** C9, as stated, fails: with a span of a thousand million hours the start
    of the first period falls before the year 1 and the computation raises
    [OverflowError], whatever the observations. *)
Lemma huge_span_raises :
  all_bounds Sample.now 1000000000 = Raise OverflowError
  /\ get_mood_trends Sample.now [] 1000000000 = Raise OverflowError
  /\ get_mood_trends Sample.now Sample.one_hour_ago 1000000000 = Raise OverflowError.
Proof.
  repeat split; vm_compute; reflexivity.
Qed.

Lemma get_mood_trends_six_periods_witness :
  exists bounds,
    all_bounds Sample.now 24 = Ok bounds
    /\ exists report,
         get_mood_trends Sample.now Sample.one_hour_ago 24 = Ok report
         /\ List.length (TrendReport.time_periods report) = 6%nat
         /\ List.length (TrendReport.mood_percentages report) = 6%nat
         /\ (forall i b, nth_error bounds i = Some b ->
               period_moods Sample.one_hour_ago b = [] ->
               nth_error (TrendReport.mood_percentages report) i = Some 0)
         /\ (Sample.one_hour_ago = [] ->
             TrendReport.mood_percentages report = [0; 0; 0; 0; 0; 0]
             /\ TrendReport.trend_direction report = "stable").
Proof.
  destruct (all_bounds Sample.now 24) as [bounds|e] eqn:E.
  - exists bounds. split; [reflexivity|].
    exact (get_mood_trends_six_periods Sample.now Sample.one_hour_ago 24 bounds E).
  - vm_compute in E. discriminate E.
Defined.

Lemma cluster_moods_min_size_witness :
  @cluster_moods Sample.runtime Sample.silent_five
  = Ok [@make_cluster Sample.runtime Sample.silent_five]
  /\ 5 <= Z.of_nat
            (List.length (Cluster.moods (@make_cluster Sample.runtime Sample.silent_five))).
Proof.
  assert (H : @cluster_moods Sample.runtime Sample.silent_five
              = Ok [@make_cluster Sample.runtime Sample.silent_five])
    by (vm_compute; reflexivity).
  split; [exact H|].
  apply (@cluster_moods_min_size Sample.runtime Sample.silent_five
           [@make_cluster Sample.runtime Sample.silent_five]
           (@make_cluster Sample.runtime Sample.silent_five) H).
  left. reflexivity.
Defined.

Lemma cluster_members_near_seed_witness :
  @cluster_moods Sample.runtime Sample.concert_six
  = Ok [@make_cluster Sample.runtime (List.firstn 5 Sample.concert_six)]
  /\ exists seed others,
       Cluster.moods (@make_cluster Sample.runtime (List.firstn 5 Sample.concert_six))
       = seed :: others
       /\ (forall member,
             In member
                (Cluster.moods
                   (@make_cluster Sample.runtime (List.firstn 5 Sample.concert_six))) ->
             (@time_diff seed member <=? float_of_int TIME_WINDOW_HOURS)%float = true)
       /\ (forall other, In other others ->
             exists distance,
               @distance_between Sample.runtime seed other = Ok distance
               /\ (distance <=? CLUSTER_RADIUS_KM)%float = true).
Proof.
  assert (H : @cluster_moods Sample.runtime Sample.concert_six
              = Ok [@make_cluster Sample.runtime (List.firstn 5 Sample.concert_six)])
    by (vm_compute; reflexivity).
  split; [exact H|].
  apply (@cluster_members_near_seed Sample.runtime Sample.concert_six
           [@make_cluster Sample.runtime (List.firstn 5 Sample.concert_six)]
           (@make_cluster Sample.runtime (List.firstn 5 Sample.concert_six)) H).
  left. reflexivity.
Defined.

Lemma detect_events_confidence_floor_witness :
  @detect_events Sample.runtime Sample.silent_five = Ok []
  /\ (forall ev, In ev [] -> 30 <= Event.confidence ev)
  /\ exists clusters,
       @cluster_moods Sample.runtime Sample.silent_five = Ok clusters
       /\ [] = List.flat_map (fun c => match @event_of_cluster Sample.runtime c with
                                       | Some e => [e]
                                       | None => []
                                       end) clusters
       /\ forall c, In c clusters -> no_text c ->
            _detect_event_type (@all_text Sample.runtime c) = ("unknown", [], 0)
            /\ @event_of_cluster Sample.runtime c = None.
Proof.
  assert (H : @detect_events Sample.runtime Sample.silent_five = Ok [])
    by (vm_compute; reflexivity).
  split; [exact H|].
  exact (@detect_events_confidence_floor Sample.runtime Sample.silent_five [] H).
Defined.

(** C8.  The claim fails on an observation at the antipode of the centre.
    With the centre at 2.5 S, 0 E and one observation at 2.5 N, 180 E the
    sines and cosines are those the C library returns, the haversine term
    [a] comes out as 1.0000000000000002, one unit in the last place above
    1, so [math.sqrt(1 - a)] raises [ValueError], and [get_area_mood] raises
    with it instead of returning the neutral default, although the
    observation is some 20000 km outside the radius.  What holds is the
    conditional: when the distance to every observation is computed and
    none is within the radius, in particular on the empty list, the result
    is the neutral default. *)
Theorem get_area_mood_antipode_raises :
  (forall (rt : Runtime) (moods : list Mood.t) (lat lng radius_km : float),
     (forall mood, In mood moods ->
        exists distance,
          _calculate_distance lat lng (Mood.latitude mood) (Mood.longitude mood)
          = Ok distance
          /\ (distance <=? radius_km)%float = false) ->
     get_area_mood moods lat lng radius_km
     = Ok {| AreaMood.dominant_emoji := "😐";
             AreaMood.mood_percentage := 50;
             AreaMood.moods_count := 0 |})
  /\ (let rt := Sample.reduced in
      let lat1_rad := math_radians (-2.5)%float in
      let lat2_rad := math_radians 2.5%float in
      let dlat := (lat2_rad - lat1_rad)%float in
      let dlon := (math_radians 180 - math_radians 0)%float in
      math_sin (dlat / 2)%float = Ok 0x1.65547c4694e11p-5%float
      /\ float_pow 0x1.65547c4694e11p-5%float 2 = Ok 0x1.f2c4be7ea5e1ep-10%float
      /\ math_cos lat1_rad = Ok 0x1.ff833f9da45f7p-1%float
      /\ math_cos lat2_rad = Ok 0x1.ff833f9da45f7p-1%float
      /\ math_sin (dlon / 2)%float = Ok 1%float
      /\ float_pow 1%float 2 = Ok 1%float
      /\ (0x1.f2c4be7ea5e1ep-10
          + 0x1.ff833f9da45f7p-1 * 0x1.ff833f9da45f7p-1 * 1)%float
         = 0x1.0000000000001p+0%float
      /\ math_sqrt (1 - 0x1.0000000000001p+0)%float = Raise ValueError
      /\ _calculate_distance (-2.5) 0 2.5 180 = Raise ValueError
      /\ get_area_mood Sample.antipode (-2.5) 0 5 = Raise ValueError).
Proof.
  split.
  - intros rt moods lat lng radius_km Hfar. unfold get_area_mood.
    rewrite (area_scan_none lat lng radius_km moods [] Hfar). reflexivity.
  - cbv zeta. repeat split; vm_compute; reflexivity.
Qed.

(** * Further properties *)

(** ** The classifier: ties, and the shape of the result *)

(** [max] with a key returns the first of the greatest: what stands before
    it is strictly smaller. *)
Lemma max_by_first {A : Type} (score : A -> Z) (l : list A) (best : A) :
  exists before after,
    best :: l = before ++ max_by score best l :: after
    /\ (forall x, In x before -> score x < score (max_by score best l))
    /\ (forall x, In x after -> score x <= score (max_by score best l)).
Proof.
  revert best; induction l as [|y l IH]; intros best; simpl.
  - exists [], []. repeat split; intros x [].
  - destruct (Z.ltb_spec (score best) (score y)) as [Hlt|Hge].
    + destruct (IH y) as (before & after & Heq & Hb & Ha).
      exists (best :: before), after. split; [simpl; rewrite Heq; reflexivity|].
      split; [|exact Ha].
      intros x [<-|Hx]; [|apply Hb; exact Hx].
      pose proof (proj2 (max_by_spec score l y) y (or_introl eq_refl)). lia.
    + destruct (IH best) as (before & after & Heq & Hb & Ha).
      destruct before as [|b before].
      * simpl in Heq. injection Heq as Hr Hl.
        exists [], (y :: after). split; [simpl; f_equal; [exact Hr|f_equal; exact Hl]|].
        split; [intros x []|].
        intros x [<-|Hx]; [rewrite <- Hr; lia|]. apply Ha. exact Hx.
      * simpl in Heq. injection Heq as <- Hl.
        exists (best :: y :: before), after.
        split; [simpl; do 2 f_equal; exact Hl|]. split; [|exact Ha].
        pose proof (Hb best (or_introl eq_refl)) as Hbest.
        intros x [<-|[<-|Hx]]; [exact Hbest|lia|].
        apply Hb. right. exact Hx.
Qed.

(** X1.  On a text with a keyword the category returned is the first in the
    order of the table among those with the most keywords found: every
    category declared before it has strictly fewer, none after it has more. *)
Theorem detect_event_type_first_wins (text : string) :
  matches_keyword text ->
  exists event_type keywords before after,
    EVENT_KEYWORDS = before ++ (event_type, keywords) :: after
    /\ fst (fst (_detect_event_type text)) = event_type
    /\ snd (fst (_detect_event_type text)) = found_in text keywords
    /\ (forall entry, In entry before ->
          event_score text entry < event_score text (event_type, keywords))
    /\ (forall entry, In entry after ->
          event_score text entry <= event_score text (event_type, keywords)).
Proof.
  intros Hm.
  destruct (max_by_first (event_score text) (List.tl EVENT_KEYWORDS)
              (List.hd ("unknown", []) EVENT_KEYWORDS))
    as (before & after & Heq & Hb & Ha).
  change (max_by (event_score text) (List.hd ("unknown", []) EVENT_KEYWORDS)
            (List.tl EVENT_KEYWORDS)) with (best_entry text) in *.
  change (List.hd ("unknown", []) EVENT_KEYWORDS :: List.tl EVENT_KEYWORDS)
    with EVENT_KEYWORDS in Heq.
  destruct (best_entry text) as [event_type keywords] eqn:Ebest.
  exists event_type, keywords, before, after.
  split; [exact Heq|].
  assert (Hres : fst (_detect_event_type text) = (event_type, found_in text keywords)).
  { unfold _detect_event_type.
    rewrite (matches_keyword_truthy text Hm). cbn [negb].
    destruct (List.forallb (fun e => event_score text e =? 0) EVENT_KEYWORDS) eqn:Eall.
    { apply all_scores_zero in Eall. contradiction. }
    rewrite Ebest. reflexivity. }
  rewrite Hres. repeat split; assumption.
Qed.

Lemma detect_event_type_first_wins_witness :
  matches_keyword "пробка на дороге, опоздал на концерт и на шоу"
  /\ exists event_type keywords before after,
       EVENT_KEYWORDS = before ++ (event_type, keywords) :: after
       /\ fst (fst (_detect_event_type "пробка на дороге, опоздал на концерт и на шоу"))
          = event_type
       /\ snd (fst (_detect_event_type "пробка на дороге, опоздал на концерт и на шоу"))
          = found_in "пробка на дороге, опоздал на концерт и на шоу" keywords
       /\ (forall entry, In entry before ->
             event_score "пробка на дороге, опоздал на концерт и на шоу" entry
             < event_score "пробка на дороге, опоздал на концерт и на шоу"
                           (event_type, keywords))
       /\ (forall entry, In entry after ->
             event_score "пробка на дороге, опоздал на концерт и на шоу" entry
             <= event_score "пробка на дороге, опоздал на концерт и на шоу"
                            (event_type, keywords)).
Proof.
  assert (H : matches_keyword "пробка на дороге, опоздал на концерт и на шоу").
  { exists ("traffic", ["пробка"; "затор"; "авария"; "дорога"; "машина"]), "пробка".
    split; [right; right; left; reflexivity|].
    split; [left; reflexivity | vm_compute; reflexivity]. }
  split; [exact H|].
  exact (detect_event_type_first_wins _ H).
Defined.

(** X2.  Whatever the text, the confidence lies between 0 and 100 and every
    keyword returned occurs in the text; the result is either
    ("unknown", [], 0) or a category of the table with at least one of its
    keywords and a confidence of at least 36. *)
Theorem detect_event_type_shape (text : string) :
  let '(event_type, keywords, confidence) := _detect_event_type text in
  0 <= confidence <= 100
  /\ (forall keyword, In keyword keywords -> contains keyword text = true)
  /\ ((event_type = "unknown" /\ keywords = [] /\ confidence = 0)
      \/ (exists all_keywords,
            In (event_type, all_keywords) EVENT_KEYWORDS
            /\ keywords <> []
            /\ (forall keyword, In keyword keywords -> In keyword all_keywords)
            /\ 36 <= confidence)).
Proof.
  destruct (matches_keyword_dec text) as [Hm|Hno].
  - destruct (detect_event_type_matched text Hm)
      as (event_type & all_keywords & Hin & _ & Hlen & Heq).
    rewrite Heq.
    pose proof (floor_confidence_bounds _ _ (table_sizes _ Hin) Hlen) as Hc.
    simpl snd in Hc.
    split; [lia|]. split.
    + intros keyword Hk. unfold found_in in Hk. apply List.filter_In in Hk. apply Hk.
    + right. exists all_keywords. split; [exact Hin|]. split.
      * intros Hnil. rewrite Hnil in Hlen. simpl in Hlen. lia.
      * split; [|lia]. intros keyword Hk. unfold found_in in Hk.
        apply List.filter_In in Hk. apply Hk.
  - rewrite (detect_event_type_unmatched text Hno).
    split; [lia|]. split; [intros keyword []|]. left. auto.
Qed.

(** ** The mood percentage depends on the three counts only *)

Lemma count_app {A : Type} (p : A -> bool) (l1 l2 : list A) :
  count p (l1 ++ l2) = count p l1 + count p l2.
Proof.
  unfold count. rewrite List.filter_app, List.length_app. lia.
Qed.

Lemma count_none {A : Type} (p : A -> bool) (l : list A) :
  (forall x, In x l -> p x = false) -> count p l = 0.
Proof.
  unfold count. induction l as [|x l IH]; intros H; simpl; [reflexivity|].
  rewrite (H x) by (left; reflexivity). apply IH.
  intros y Hy. apply H. right. exact Hy.
Qed.

Lemma count_permutation {A : Type} (p : A -> bool) (l1 l2 : list A) :
  Permutation l1 l2 -> count p l1 = count p l2.
Proof.
  intros H. unfold count. f_equal.
  induction H; simpl.
  - reflexivity.
  - destruct (p x); simpl; congruence.
  - destruct (p x), (p y); reflexivity.
  - congruence.
Qed.

Lemma mood_percentage_of_counts (moods : list Mood.t) :
  _calculate_mood_percentage moods
  = if positive_count moods + negative_count moods + neutral_count moods =? 0
    then 50
    else percentage_of_counts (positive_count moods) (neutral_count moods)
           (positive_count moods + negative_count moods + neutral_count moods).
Proof.
  destruct moods; reflexivity.
Qed.

(** X3.  Observations whose emoji is outside the three sets never change the
    percentage, and neither does the order of the observations. *)
Theorem mood_percentage_ignores_unknown_emoji (moods extra shuffled : list Mood.t) :
  (forall m, In m extra -> outside_taxonomy m = true) ->
  Permutation (moods ++ extra) shuffled ->
  _calculate_mood_percentage shuffled = _calculate_mood_percentage moods.
Proof.
  intros Hout Hperm.
  rewrite !mood_percentage_of_counts.
  unfold positive_count, negative_count, neutral_count.
  rewrite <- !(count_permutation _ _ _ Hperm), !count_app.
  assert (Hp : count (fun m => str_in (Mood.emoji m) POSITIVE_EMOJIS) extra = 0).
  { apply count_none. intros m Hm. apply Hout in Hm. unfold outside_taxonomy in Hm.
    apply andb_true_iff in Hm as [Hm _]. apply andb_true_iff in Hm as [Hm _].
    apply negb_true_iff. exact Hm. }
  assert (Hn : count (fun m => str_in (Mood.emoji m) NEGATIVE_EMOJIS) extra = 0).
  { apply count_none. intros m Hm. apply Hout in Hm. unfold outside_taxonomy in Hm.
    apply andb_true_iff in Hm as [Hm _]. apply andb_true_iff in Hm as [_ Hm].
    apply negb_true_iff. exact Hm. }
  assert (Hu : count (fun m => str_in (Mood.emoji m) NEUTRAL_EMOJIS) extra = 0).
  { apply count_none. intros m Hm. apply Hout in Hm. unfold outside_taxonomy in Hm.
    apply andb_true_iff in Hm as [_ Hm]. apply negb_true_iff. exact Hm. }
  rewrite Hp, Hn, Hu, !Z.add_0_r. reflexivity.
Qed.

(** ** [sorted] *)

Lemma insert_desc_permutation {A : Type} (key : A -> Z) (x : A) (l : list A) :
  Permutation (insert_desc key x l) (x :: l).
Proof.
  induction l as [|y l IH]; simpl; [reflexivity|].
  destruct (key x <? key y); [|reflexivity].
  rewrite IH. apply perm_swap.
Qed.

Lemma sorted_desc_permutation {A : Type} (key : A -> Z) (l : list A) :
  Permutation (sorted_desc key l) l.
Proof.
  unfold sorted_desc. induction l as [|x l IH]; simpl; [reflexivity|].
  rewrite insert_desc_permutation. constructor. exact IH.
Qed.

Lemma insert_desc_sorted {A : Type} (key : A -> Z) (x : A) (l : list A) :
  StronglySorted (fun a b => key b <= key a) l ->
  StronglySorted (fun a b => key b <= key a) (insert_desc key x l).
Proof.
  induction l as [|y l IH]; simpl; intros Hs.
  - constructor; constructor.
  - apply StronglySorted_inv in Hs as [Hs Hy].
    destruct (Z.ltb_spec (key x) (key y)) as [Hlt|Hge].
    + constructor; [apply IH; exact Hs|].
      apply (Permutation_Forall (Permutation_sym (insert_desc_permutation key x l))).
      constructor; [lia|exact Hy].
    + constructor; [constructor; assumption|].
      constructor; [exact Hge|].
      apply (List.Forall_impl (P := fun b => key b <= key y)); [intros; lia|exact Hy].
Qed.

Lemma sorted_desc_sorted {A : Type} (key : A -> Z) (l : list A) :
  StronglySorted (fun a b => key b <= key a) (sorted_desc key l).
Proof.
  unfold sorted_desc. induction l as [|x l IH]; simpl; [constructor|].
  apply insert_desc_sorted. exact IH.
Qed.

(** ** Subsequences *)

Lemma sublist_In {A : Type} (l1 l2 : list A) (x : A) :
  l1 `sublist_of` l2 -> In x l1 -> In x l2.
Proof.
  induction 1 as [|y l1 l2 _ IH|y l1 l2 _ IH]; simpl; intuition.
Qed.

Lemma sublist_Forall {A : Type} (P : A -> Prop) (l1 l2 : list A) :
  l1 `sublist_of` l2 -> Forall P l2 -> Forall P l1.
Proof.
  intros Hs Hall. rewrite List.Forall_forall in *.
  intros x Hx. apply Hall. exact (sublist_In l1 l2 x Hs Hx).
Qed.

Lemma sublist_StronglySorted {A : Type} (R : A -> A -> Prop) (l1 l2 : list A) :
  l1 `sublist_of` l2 -> StronglySorted R l2 -> StronglySorted R l1.
Proof.
  induction 1 as [|y l1 l2 Hs IH|y l1 l2 Hs IH]; intros Hsorted.
  - constructor.
  - apply StronglySorted_inv in Hsorted as [Hsorted Hy].
    constructor; [apply IH; exact Hsorted|].
    exact (sublist_Forall _ l1 l2 Hs Hy).
  - apply StronglySorted_inv in Hsorted as [Hsorted _]. apply IH. exact Hsorted.
Qed.

Lemma StronglySorted_suffix {A : Type} (R : A -> A -> Prop) (l1 l2 : list A) :
  StronglySorted R (l1 ++ l2) -> StronglySorted R l2.
Proof.
  induction l1 as [|x l1 IH]; simpl; intros H; [exact H|].
  apply StronglySorted_inv in H as [H _]. apply IH. exact H.
Qed.

Lemma foldM_app {A S : Type} (body : S -> A -> res S) (l1 l2 : list A) (s : S) :
  foldM body (l1 ++ l2) s = let* s1 := foldM body l1 s in foldM body l2 s1.
Proof.
  revert s; induction l1 as [|x l1 IH]; intros s; simpl; [reflexivity|].
  destruct (body s x) as [s1|e]; simpl; [apply IH|reflexivity].
Qed.

(** ** The structure of the clusters *)

Section ClusterStructure.

Context {rt : Runtime}.

(** The inner loop passes over processed observations without computing a
    distance. *)
Lemma scan_skip (seed : Mood.t) (l : list Mood.t) (st : list Mood.t * gset Z) :
  (forall m, In m l -> Mood.id m ∈ snd st) ->
  foldM (scan_step seed) l st = Ok st.
Proof.
  induction l as [|x l IH]; cbn [foldM]; intros H; [reflexivity|].
  unfold scan_step at 1.
  rewrite bool_decide_eq_true_2 by (apply H; left; reflexivity).
  rewrite bind_ret. apply IH. intros m Hm. apply H. right. exact Hm.
Qed.

(** What the inner loop adds: a subsequence of the list it scans, of
    observations that were not processed, with distinct ids, each admitted
    by the test against the seed; their ids are what becomes processed. *)
Lemma scan_spec (seed : Mood.t) (l : list Mood.t) (st st' : list Mood.t * gset Z) :
  foldM (scan_step seed) l st = Ok st' ->
  exists added,
    fst st' = fst st ++ added
    /\ added `sublist_of` l
    /\ (forall m, In m added -> Mood.id m ∉ snd st)
    /\ List.NoDup (List.map Mood.id added)
    /\ (forall i, i ∈ snd st' <-> i ∈ snd st \/ In i (List.map Mood.id added))
    /\ Forall (fun other => belongs seed other = Ok true) added.
Proof.
  revert st; induction l as [|x l IH]; intros st; cbn [foldM]; intros H.
  - injection H as <-. exists []. rewrite List.app_nil_r.
    split; [reflexivity|]. split; [constructor|]. split; [intros m []|].
    split; [constructor|]. split; [|constructor].
    intros i. simpl. tauto.
  - apply bind_Ok in H as (s1 & H1 & H2).
    destruct (IH s1 H2) as (added & Hc & Hsub & Hfresh & Hnd & Hp & Hall).
    unfold scan_step in H1.
    destruct (bool_decide (Mood.id x ∈ snd st)) eqn:Ex.
    + injection H1 as <-. exists added.
      split; [exact Hc|]. split; [apply sublist_cons; exact Hsub|]. auto.
    + apply bool_decide_eq_false in Ex.
      apply bind_Ok in H1 as (ok & Hok & H1). destruct ok; injection H1 as <-.
      * cbn [fst snd] in Hc, Hfresh, Hp |- *. exists (x :: added).
        split; [rewrite Hc, <- List.app_assoc; reflexivity|].
        split; [apply sublist_skip; exact Hsub|].
        split.
        { intros m [<-|Hm]; [exact Ex|]. intros Hin. apply (Hfresh m Hm).
          apply elem_of_union_r. exact Hin. }
        split.
        { cbn [List.map]. constructor; [|exact Hnd].
          intros Hin. apply List.in_map_iff in Hin as (m & Hid & Hm).
          apply (Hfresh m Hm). rewrite Hid.
          apply elem_of_union_l. apply elem_of_singleton. reflexivity. }
        split; [|constructor; assumption].
        intros i. rewrite Hp. cbn [List.map In].
        rewrite elem_of_union, elem_of_singleton. intuition congruence.
      * exists added.
        split; [exact Hc|]. split; [apply sublist_cons; exact Hsub|]. auto.
Qed.

Lemma member_ids_app (clusters1 clusters2 : list Cluster.t) :
  member_ids (clusters1 ++ clusters2) = member_ids clusters1 ++ member_ids clusters2.
Proof.
  unfold member_ids. rewrite List.map_app, List.concat_app, List.map_app. reflexivity.
Qed.

Lemma member_ids_one (cluster_moods : list Mood.t) :
  member_ids [make_cluster cluster_moods] = List.map Mood.id cluster_moods.
Proof.
  unfold member_ids. cbn [List.map List.concat make_cluster Cluster.moods].
  rewrite List.app_nil_r. reflexivity.
Qed.

Lemma seed_step_invariant (sorted_moods before after : list Mood.t) (x : Mood.t)
  (st st' : list Cluster.t * gset Z) :
  sorted_moods = before ++ x :: after ->
  outer_invariant sorted_moods before st ->
  seed_step sorted_moods st x = Ok st' ->
  outer_invariant sorted_moods (before ++ [x]) st'.
Proof.
  intros Hsorted (Hvisited & Hnd & Hids & Hplaced). unfold seed_step.
  destruct (bool_decide (Mood.id x ∈ snd st)) eqn:Ex.
  - apply bool_decide_eq_true in Ex. intros H. injection H as <-.
    split; [|auto].
    intros m Hm. apply List.in_app_iff in Hm as [Hm|[<-|[]]]; auto.
  - apply bool_decide_eq_false in Ex. intros H.
    apply bind_Ok in H as (scanned & Hscan & H).
    rewrite Hsorted in Hscan. rewrite foldM_app in Hscan.
    rewrite scan_skip in Hscan
      by (cbn [snd]; intros m Hm; apply elem_of_union_r; apply Hvisited; exact Hm).
    rewrite bind_ret in Hscan. cbn [foldM] in Hscan.
    unfold scan_step at 1 in Hscan.
    rewrite bool_decide_eq_true_2 in Hscan
      by (cbn [snd]; apply elem_of_union_l; apply elem_of_singleton; reflexivity).
    rewrite bind_ret in Hscan.
    destruct (scan_spec x after _ scanned Hscan)
      as (added & Hc & Hsub & Hfresh & Hnda & Hp & _).
    cbn [fst snd] in Hc, Hfresh, Hp.
    assert (Hvisited' : forall m, In m (before ++ [x]) -> Mood.id m ∈ snd scanned).
    { intros m Hm. apply Hp. left.
      apply List.in_app_iff in Hm as [Hm|[<-|[]]].
      - apply elem_of_union_r. apply Hvisited. exact Hm.
      - apply elem_of_union_l. apply elem_of_singleton. reflexivity. }
    destruct (MIN_CLUSTER_SIZE <=? Z.of_nat (List.length (fst scanned)));
      injection H as <-; cbn [fst snd].
    + split; [exact Hvisited'|]. cbn [fst snd]. rewrite Hc. cbn [List.app].
      rewrite member_ids_app, member_ids_one. cbn [List.map].
      split.
      { apply List.NoDup_app; [exact Hnd| |].
        - constructor; [|exact Hnda].
          intros Hin. apply List.in_map_iff in Hin as (m & Hid & Hm).
          apply (Hfresh m Hm). rewrite Hid.
          apply elem_of_union_l. apply elem_of_singleton. reflexivity.
        - intros i Hi [<-|Hin].
          + apply Ex. apply Hids. exact Hi.
          + apply List.in_map_iff in Hin as (m & Hid & Hm).
            apply (Hfresh m Hm). rewrite Hid.
            apply elem_of_union_r. apply Hids. exact Hi. }
      split.
      { intros i Hi. apply Hp.
        apply List.in_app_iff in Hi as [Hi|[<-|Hi]].
        - left. apply elem_of_union_r. apply Hids. exact Hi.
        - left. apply elem_of_union_l. apply elem_of_singleton. reflexivity.
        - right. exact Hi. }
      apply List.Forall_app. split; [exact Hplaced|].
      constructor; [|constructor].
      exists x, added, before, after. auto.
    + split; [exact Hvisited'|]. cbn [fst snd]. split; [exact Hnd|]. split; [|exact Hplaced].
      intros i Hi. apply Hp. left. apply elem_of_union_r. apply Hids. exact Hi.
Qed.

Lemma outer_loop_invariant (sorted_moods after before : list Mood.t)
  (st st' : list Cluster.t * gset Z) :
  sorted_moods = before ++ after ->
  outer_invariant sorted_moods before st ->
  foldM (seed_step sorted_moods) after st = Ok st' ->
  outer_invariant sorted_moods sorted_moods st'.
Proof.
  revert before st; induction after as [|x after IH]; intros before st Hsorted Hinv;
    cbn [foldM]; intros H.
  - injection H as <-. rewrite List.app_nil_r in Hsorted. rewrite Hsorted at 2.
    exact Hinv.
  - apply bind_Ok in H as (s1 & H1 & H2).
    apply (IH (before ++ [x]) s1).
    + rewrite <- List.app_assoc. exact Hsorted.
    + exact (seed_step_invariant sorted_moods before after x st s1 Hsorted Hinv H1).
    + exact H2.
Qed.

(** The clusters returned: no id occurs twice among their members, and each
    is made of a seed and of observations that follow it in the sorted
    list. *)
Lemma cluster_moods_placed (moods : list Mood.t) (clusters : list Cluster.t) :
  cluster_moods moods = Ok clusters ->
  List.NoDup (member_ids clusters)
  /\ Forall (placed (sorted_desc Mood.timestamp moods)) clusters.
Proof.
  unfold cluster_moods. intros H. apply bind_Ok in H as (final & Hrun & H).
  injection H as <-.
  destruct (outer_loop_invariant (sorted_desc Mood.timestamp moods)
              (sorted_desc Mood.timestamp moods) [] ([], ∅) final)
    as (_ & Hnd & _ & Hplaced); auto.
  split; [intros m []|]. split; [constructor|]. split; [intros i []|constructor].
Qed.

End ClusterStructure.

Section ClusterProperties.

Context {rt : Runtime}.

Lemma placed_members (sorted_moods : list Mood.t) (cluster : Cluster.t) :
  placed sorted_moods cluster ->
  exists seed others before after,
    sorted_moods = before ++ seed :: after
    /\ Cluster.moods cluster = seed :: others
    /\ (seed :: others) `sublist_of` (seed :: after).
Proof.
  intros (seed & others & before & after & Hs & Hsub & ->).
  exists seed, others, before, after. split; [exact Hs|]. split; [reflexivity|].
  apply sublist_skip. exact Hsub.
Qed.

Lemma cluster_members_in_input (moods : list Mood.t) (clusters : list Cluster.t)
  (cluster : Cluster.t) (member : Mood.t) :
  cluster_moods moods = Ok clusters -> In cluster clusters ->
  In member (Cluster.moods cluster) -> In member moods.
Proof.
  intros Hrun Hin Hm.
  destruct (cluster_moods_placed moods clusters Hrun) as [_ Hplaced].
  rewrite List.Forall_forall in Hplaced.
  destruct (placed_members _ _ (Hplaced cluster Hin))
    as (seed & others & before & after & Hsorted & Hmoods & Hsub).
  rewrite Hmoods in Hm.
  apply (Permutation_in _ (sorted_desc_permutation Mood.timestamp moods)).
  rewrite Hsorted. apply List.in_or_app. right.
  exact (sublist_In _ _ _ Hsub Hm).
Qed.

(** X4.  The members of a returned cluster are observations of the input, listed
    from the most recent to the oldest; the first of them, the seed, is at
    least as recent as every member. *)
Theorem cluster_members_newest_first (moods : list Mood.t) (clusters : list Cluster.t)
  (cluster : Cluster.t) :
  cluster_moods moods = Ok clusters -> In cluster clusters ->
  (forall member, In member (Cluster.moods cluster) -> In member moods)
  /\ StronglySorted not_older (Cluster.moods cluster)
  /\ exists seed others,
       Cluster.moods cluster = seed :: others
       /\ forall member, In member (Cluster.moods cluster) ->
            Mood.timestamp member <= Mood.timestamp seed.
Proof.
  intros Hrun Hin.
  destruct (cluster_moods_placed moods clusters Hrun) as [_ Hplaced].
  rewrite List.Forall_forall in Hplaced.
  destruct (placed_members _ _ (Hplaced cluster Hin))
    as (seed & others & before & after & Hsorted & Hmoods & Hsub).
  pose proof (sorted_desc_sorted Mood.timestamp moods) as Hs.
  rewrite Hsorted in Hs. apply StronglySorted_suffix in Hs.
  assert (Hcluster : StronglySorted not_older (Cluster.moods cluster)).
  { rewrite Hmoods. exact (sublist_StronglySorted _ _ _ Hsub Hs). }
  split; [|split; [exact Hcluster|]].
  - intros member Hm. exact (cluster_members_in_input moods clusters cluster member Hrun Hin Hm).
  - exists seed, others. split; [exact Hmoods|].
    intros member Hm. rewrite Hmoods in Hm, Hcluster.
    apply StronglySorted_inv in Hcluster as [_ Hall].
    rewrite List.Forall_forall in Hall.
    destruct Hm as [<-|Hm]; [lia|]. exact (Hall member Hm).
Qed.

(** X5.  No id occurs twice among the members of the returned clusters: an
    observation is assigned to one cluster at most, and once. *)
Theorem cluster_member_ids_distinct (moods : list Mood.t) (clusters : list Cluster.t) :
  cluster_moods moods = Ok clusters -> List.NoDup (member_ids clusters).
Proof.
  intros Hrun. exact (proj1 (cluster_moods_placed moods clusters Hrun)).
Qed.

Lemma member_ids_length (clusters : list Cluster.t) :
  Forall well_formed clusters ->
  5 * Z.of_nat (List.length clusters) <= Z.of_nat (List.length (member_ids clusters)).
Proof.
  induction 1 as [|c clusters [Hsize _] _ IH].
  - simpl. lia.
  - change (c :: clusters) with ([c] ++ clusters).
    rewrite member_ids_app, !List.length_app.
    unfold member_ids at 1. cbn [List.map List.concat List.length].
    rewrite List.app_nil_r, List.length_map.
    unfold MIN_CLUSTER_SIZE in Hsize. lia.
Qed.

(** X6.  There are at most a fifth as many clusters as observations; fewer than
    five observations give no cluster. *)
Theorem cluster_count_bound (moods : list Mood.t) (clusters : list Cluster.t) :
  cluster_moods moods = Ok clusters ->
  5 * Z.of_nat (List.length clusters) <= Z.of_nat (List.length moods)
  /\ (Z.of_nat (List.length moods) < 5 -> clusters = []).
Proof.
  intros Hrun.
  assert (Hbound : 5 * Z.of_nat (List.length clusters) <= Z.of_nat (List.length moods)).
  { pose proof (member_ids_length clusters (cluster_moods_well_formed moods clusters Hrun))
      as Hlen.
    pose proof (proj1 (cluster_moods_placed moods clusters Hrun)) as Hnd.
    assert (Hincl : incl (member_ids clusters) (List.map Mood.id moods)).
    { intros i Hi. unfold member_ids in Hi.
      apply List.in_map_iff in Hi as (m & <- & Hm).
      apply List.in_concat in Hm as (members & Hmembers & Hm).
      apply List.in_map_iff in Hmembers as (c & <- & Hc).
      apply List.in_map.
      exact (cluster_members_in_input moods clusters c m Hrun Hc Hm). }
    pose proof (List.NoDup_incl_length Hnd Hincl) as Hle.
    rewrite List.length_map in Hle. lia. }
  split; [exact Hbound|].
  intros Hfew. destruct clusters; [reflexivity|]. simpl in Hbound. lia.
Qed.

(** The inner loop admits every observation of a list of unprocessed
    observations with distinct ids that all pass the test. *)
Lemma scan_all (seed : Mood.t) (l cluster : list Mood.t) (processed : gset Z) :
  List.NoDup (List.map Mood.id l) ->
  (forall m, In m l -> Mood.id m ∉ processed) ->
  Forall (fun other => belongs seed other = Ok true) l ->
  exists processed',
    foldM (scan_step seed) l (cluster, processed) = Ok (cluster ++ l, processed')
    /\ forall i, i ∈ processed' <-> i ∈ processed \/ In i (List.map Mood.id l).
Proof.
  revert cluster processed; induction l as [|x l IH]; intros cluster processed Hnd Hfresh Hall.
  - exists processed. rewrite List.app_nil_r. split; [reflexivity|].
    intros i. simpl. tauto.
  - cbn [List.map] in Hnd. apply List.NoDup_cons_iff in Hnd as [Hx Hnd].
    apply List.Forall_cons_iff in Hall as [Hok Hall].
    destruct (IH (cluster ++ [x]) ({[ Mood.id x ]} ∪ processed) Hnd) as (p' & Hrun & Hp').
    + intros m Hm Hin. apply elem_of_union in Hin as [Hin|Hin].
      * apply elem_of_singleton in Hin. apply Hx. rewrite <- Hin.
        apply List.in_map. exact Hm.
      * apply (Hfresh m); [right; exact Hm|exact Hin].
    + exact Hall.
    + exists p'. split.
      * cbn [foldM]. unfold scan_step at 1. cbn [fst snd].
        rewrite bool_decide_eq_false_2 by (apply Hfresh; left; reflexivity).
        rewrite Hok, !bind_ret. rewrite Hrun, <- List.app_assoc. reflexivity.
      * intros i. rewrite Hp', elem_of_union, elem_of_singleton.
        cbn [List.map In]. intuition congruence.
Qed.

(** The outer loop passes over processed observations. *)
Lemma seed_skip (sorted_moods l : list Mood.t) (st : list Cluster.t * gset Z) :
  (forall m, In m l -> Mood.id m ∈ snd st) ->
  foldM (seed_step sorted_moods) l st = Ok st.
Proof.
  induction l as [|x l IH]; cbn [foldM]; intros H; [reflexivity|].
  unfold seed_step at 1.
  rewrite bool_decide_eq_true_2 by (apply H; left; reflexivity).
  rewrite bind_ret. apply IH. intros m Hm. apply H. right. exact Hm.
Qed.

(** X7.  When the ids are distinct, there are at least five observations and all
    pass the test against the most recent one, the result is one cluster
    with all the observations, the most recent first. *)
Theorem cluster_moods_single_cluster (moods : list Mood.t) (seed : Mood.t)
  (others : list Mood.t) :
  sorted_desc Mood.timestamp moods = seed :: others ->
  List.NoDup (List.map Mood.id moods) ->
  Forall (fun other => belongs seed other = Ok true) others ->
  MIN_CLUSTER_SIZE <= Z.of_nat (List.length moods) ->
  cluster_moods moods = Ok [make_cluster (seed :: others)].
Proof.
  intros Hsorted Hnd Hall Hsize.
  pose proof (sorted_desc_permutation Mood.timestamp moods) as Hperm.
  rewrite Hsorted in Hperm.
  assert (Hnd' : List.NoDup (List.map Mood.id (seed :: others))).
  { apply (Permutation_NoDup (Permutation_map Mood.id (Permutation_sym Hperm))).
    exact Hnd. }
  cbn [List.map] in Hnd'. apply List.NoDup_cons_iff in Hnd' as [Hseed Hnd'].
  destruct (scan_all seed others [seed] ({[ Mood.id seed ]} ∪ ∅) Hnd') as (p' & Hscan & Hp').
  { intros m Hm Hin. apply elem_of_union in Hin as [Hin|Hin].
    - apply elem_of_singleton in Hin. apply Hseed. rewrite <- Hin.
      apply List.in_map. exact Hm.
    - apply elem_of_empty in Hin. exact Hin. }
  { exact Hall. }
  unfold cluster_moods. rewrite Hsorted. cbn [foldM].
  unfold seed_step at 1. cbn [fst snd].
  rewrite bool_decide_eq_false_2 by (apply not_elem_of_empty).
  cbn [foldM]. unfold scan_step at 1. cbn [fst snd].
  rewrite bool_decide_eq_true_2
    by (apply elem_of_union_l; apply elem_of_singleton; reflexivity).
  rewrite bind_ret, Hscan, bind_ret. cbn [fst snd List.app].
  assert (Hlen : List.length (seed :: others) = List.length moods).
  { symmetry. apply Permutation_length. apply Permutation_sym. exact Hperm. }
  rewrite Hlen.
  destruct (Z.leb_spec MIN_CLUSTER_SIZE (Z.of_nat (List.length moods))) as [_|Hlt]; [|lia].
  rewrite bind_ret.
  rewrite seed_skip; [reflexivity|].
  intros m Hm. cbn [snd]. apply Hp'. right. apply List.in_map. exact Hm.
Qed.

End ClusterProperties.

(** ** Events *)

Section EventProperties.

Context {rt : Runtime}.

Lemma table_has_no_unknown (event_type : string) (keywords : list string) :
  In (event_type, keywords) EVENT_KEYWORDS -> event_type <> "unknown".
Proof.
  unfold EVENT_KEYWORDS. simpl In.
  intros [H|[H|[H|[H|[H|[H|[]]]]]]]; injection H as <- _; discriminate.
Qed.

(** The fields of the event of a cluster. *)
Lemma event_of_cluster_fields (cluster : Cluster.t) (ev : Event.t) :
  event_of_cluster cluster = Some ev ->
  (exists all_keywords,
      In (Event.type ev, all_keywords) EVENT_KEYWORDS
      /\ Event.keywords ev = found_in (all_text cluster) all_keywords)
  /\ Event.keywords ev <> []
  /\ 36 <= Event.confidence ev <= 100
  /\ Event.location ev = Cluster.center cluster
  /\ Event.dominant_emoji ev = Cluster.dominant_emoji cluster
  /\ Event.mood_percentage ev = Cluster.mood_percentage cluster
  /\ Event.moods_count ev = Z.of_nat (List.length (Cluster.moods cluster)).
Proof.
  intros Hev.
  destruct (matches_keyword_dec (all_text cluster)) as [Hm|Hno].
  - destruct (detect_event_type_matched _ Hm)
      as (event_type & all_keywords & Hin & _ & Hlen & Heq).
    pose proof (floor_confidence_bounds _ _ (table_sizes _ Hin) Hlen) as Hc.
    simpl snd in Hc.
    unfold event_of_cluster in Hev. rewrite Heq in Hev.
    destruct (30 <=? floor_confidence
                       (Z.of_nat (List.length (found_in (all_text cluster) all_keywords)))
                       (Z.of_nat (List.length all_keywords))); [|discriminate].
    injection Hev as <-. cbn.
    split; [exists all_keywords; auto|]. split; [|auto].
    intros Hnil. rewrite Hnil in Hlen. simpl in Hlen. lia.
  - rewrite (event_of_cluster_unmatched cluster Hno) in Hev. discriminate.
Qed.

Lemma flat_map_option_length {A B : Type} (f : A -> option B) (l : list A) :
  (List.length (List.flat_map (fun x => match f x with
                                        | Some y => [y]
                                        | None => []
                                        end) l) <= List.length l)%nat.
Proof.
  induction l as [|x l IH]; simpl; [lia|].
  rewrite List.length_app. destruct (f x); simpl; lia.
Qed.

(** X8.  Every event returned describes one of the clusters: it carries the
    centre, the dominant emoji, the percentage and the size (at least 5) of
    the cluster, its type is one of the six categories, never "unknown", its
    keywords are those of the category found in the text of the cluster, at
    least one, and its confidence lies between 36 and 100.  There are no
    more events than clusters. *)
Theorem detect_events_describe_clusters (moods : list Mood.t) (events : list Event.t) :
  detect_events moods = Ok events ->
  exists clusters,
    cluster_moods moods = Ok clusters
    /\ (List.length events <= List.length clusters)%nat
    /\ forall ev, In ev events ->
         exists cluster all_keywords,
           In cluster clusters
           /\ In (Event.type ev, all_keywords) EVENT_KEYWORDS
           /\ Event.type ev <> "unknown"
           /\ Event.keywords ev = found_in (all_text cluster) all_keywords
           /\ Event.keywords ev <> []
           /\ 36 <= Event.confidence ev <= 100
           /\ Event.location ev = Cluster.center cluster
           /\ Event.dominant_emoji ev = Cluster.dominant_emoji cluster
           /\ Event.mood_percentage ev = Cluster.mood_percentage cluster
           /\ Event.moods_count ev = Z.of_nat (List.length (Cluster.moods cluster))
           /\ 5 <= Event.moods_count ev.
Proof.
  unfold detect_events. intros H.
  apply bind_Ok in H as (clusters & Hc & He). injection He as <-.
  exists clusters. split; [exact Hc|]. rewrite events_of_flat_map.
  split; [apply flat_map_option_length|].
  intros ev Hin. apply List.in_flat_map in Hin as (cluster & Hcl & Hin).
  destruct (event_of_cluster cluster) as [e|] eqn:E; [|destruct Hin].
  destruct Hin as [<-|[]].
  destruct (event_of_cluster_fields cluster e E)
    as ((all_keywords & Hty & Hkw) & Hne & Hconf & Hloc & Hdom & Hpct & Hcount).
  exists cluster, all_keywords.
  pose proof (cluster_moods_well_formed moods clusters Hc) as Hwf.
  rewrite List.Forall_forall in Hwf. destruct (Hwf cluster Hcl) as [Hsize _].
  unfold MIN_CLUSTER_SIZE in Hsize.
  repeat split; try assumption; try lia.
  exact (table_has_no_unknown _ _ Hty).
Qed.

(** The confidence of the events of [detect_events]. *)
Lemma detect_events_confidence_bounds (moods : list Mood.t) (events : list Event.t) :
  detect_events moods = Ok events ->
  forall ev, In ev events -> 36 <= Event.confidence ev <= 100.
Proof.
  unfold detect_events. intros H.
  apply bind_Ok in H as (clusters & Hc & He). injection He as <-.
  rewrite events_of_flat_map.
  intros ev Hin. apply List.in_flat_map in Hin as (cluster & Hcl & Hin).
  destruct (event_of_cluster cluster) as [e|] eqn:E; [|destruct Hin].
  destruct Hin as [<-|[]].
  destruct (event_of_cluster_fields cluster e E) as (_ & _ & Hconf & _).
  exact Hconf.
Qed.

End EventProperties.

(** ** Counters *)

Lemma get0_counter_add (k key : string) (d : list (string * Z)) :
  get0 k (counter_add key d) = get0 k d + (if String.eqb k key then 1 else 0).
Proof.
  induction d as [|[k' n] d IH]; cbn [counter_add get0].
  - destruct (String.eqb k key); lia.
  - destruct (String.eqb_spec key k') as [->|Hne]; cbn [get0].
    + destruct (String.eqb k k'); lia.
    + destruct (String.eqb_spec k k') as [->|Hne'].
      * destruct (String.eqb_spec k' key) as [->|_]; [contradiction|lia].
      * exact IH.
Qed.

Lemma occurrences_cons (k key : string) (l : list string) :
  occurrences k (key :: l) = (if String.eqb k key then 1 else 0) + occurrences k l.
Proof.
  unfold occurrences, count. cbn [List.filter].
  destruct (String.eqb k key); cbn [List.length]; lia.
Qed.

Lemma get0_fold (k : string) (l : list string) (d : list (string * Z)) :
  get0 k (List.fold_left (fun d key => counter_add key d) l d)
  = get0 k d + occurrences k l.
Proof.
  revert d; induction l as [|key l IH]; intros d; cbn [List.fold_left].
  - unfold occurrences, count. simpl. lia.
  - rewrite IH, get0_counter_add, occurrences_cons. lia.
Qed.

(** A counter holds for every key the number of its occurrences. *)
Lemma get0_counter (k : string) (l : list string) :
  get0 k (counter l) = occurrences k l.
Proof.
  unfold counter. rewrite get0_fold. reflexivity.
Qed.

Lemma total_count_counter_add (key : string) (d : list (string * Z)) :
  total_count (counter_add key d) = total_count d + 1.
Proof.
  unfold total_count.
  induction d as [|[k' n] d IH]; cbn [counter_add List.fold_right snd]; [lia|].
  destruct (String.eqb key k'); cbn [List.fold_right snd]; lia.
Qed.

Lemma total_count_counter (l : list string) :
  total_count (counter l) = Z.of_nat (List.length l).
Proof.
  unfold counter.
  enough (H : forall d,
             total_count (List.fold_left (fun d key => counter_add key d) l d)
             = total_count d + Z.of_nat (List.length l)) by (rewrite H; reflexivity).
  induction l as [|key l IH]; intros d; cbn [List.fold_left List.length]; [lia|].
  rewrite IH, total_count_counter_add. lia.
Qed.

Lemma counter_add_keys (key : string) (d : list (string * Z)) :
  List.NoDup (List.map fst d) -> List.NoDup (List.map fst (counter_add key d))
  /\ forall k, In k (List.map fst (counter_add key d)) <-> k = key \/ In k (List.map fst d).
Proof.
  induction d as [|[k' n] d IH]; cbn [counter_add List.map fst]; intros Hnd.
  - split; [constructor; [intros []|constructor]|]. intros k. simpl. intuition.
  - apply List.NoDup_cons_iff in Hnd as [Hk Hnd].
    destruct (String.eqb_spec key k') as [->|Hne]; cbn [List.map fst].
    + split; [constructor; assumption|]. intros k. simpl. intuition.
    + destruct (IH Hnd) as [Hnd' Hkeys]. split.
      * constructor; [|exact Hnd']. rewrite Hkeys. intros [->|Hin]; auto.
      * intros k. cbn [In]. rewrite Hkeys. intuition.
Qed.

Lemma counter_keys (l : list string) :
  List.NoDup (List.map fst (counter l))
  /\ forall k, In k (List.map fst (counter l)) <-> In k l.
Proof.
  unfold counter.
  enough (H : forall d,
             List.NoDup (List.map fst d) ->
             List.NoDup (List.map fst (List.fold_left (fun d key => counter_add key d) l d))
             /\ forall k, In k (List.map fst
                                  (List.fold_left (fun d key => counter_add key d) l d))
                          <-> In k l \/ In k (List.map fst d)).
  { destruct (H [] (List.NoDup_nil _)) as [Hnd Hkeys]. split; [exact Hnd|].
    intros k. rewrite Hkeys. simpl. tauto. }
  induction l as [|key l IH]; intros d Hnd; cbn [List.fold_left].
  - split; [exact Hnd|]. intros k. simpl. tauto.
  - destruct (counter_add_keys key d Hnd) as [Hnd' Hkeys].
    destruct (IH _ Hnd') as [Hnd'' Hkeys'']. split; [exact Hnd''|].
    intros k. rewrite Hkeys'', Hkeys. cbn [In]. intuition.
Qed.

Lemma get0_entry (d : list (string * Z)) (k : string) (n : Z) :
  List.NoDup (List.map fst d) -> In (k, n) d -> get0 k d = n.
Proof.
  induction d as [|[k' n'] d IH]; cbn [List.map fst get0]; intros Hnd Hin; [destruct Hin|].
  apply List.NoDup_cons_iff in Hnd as [Hk Hnd].
  destruct Hin as [Heq|Hin].
  - injection Heq as -> ->. rewrite String.eqb_refl. reflexivity.
  - destruct (String.eqb_spec k k') as [->|_]; [|exact (IH Hnd Hin)].
    exfalso. apply Hk. change k' with (fst (k', n)). apply List.in_map. exact Hin.
Qed.

Lemma get0_found (d : list (string * Z)) (k : string) :
  get0 k d = 0 \/ In (k, get0 k d) d.
Proof.
  induction d as [|[k' n'] d IH]; cbn [get0]; [left; reflexivity|].
  destruct (String.eqb_spec k k') as [->|_].
  - right. left. reflexivity.
  - destruct IH as [IH|IH]; [left; exact IH|right; right; exact IH].
Qed.

Lemma occurrences_positive (k : string) (l : list string) :
  In k l -> 1 <= occurrences k l.
Proof.
  intros Hin. unfold occurrences, count.
  assert (H : In k (List.filter (String.eqb k) l)).
  { apply List.filter_In. split; [exact Hin|apply String.eqb_refl]. }
  destruct (List.filter (String.eqb k) l); [destruct H|simpl; lia].
Qed.

(** The most common key of a non-empty list occurs in it, and no key occurs
    more often. *)
Lemma most_common1_dominant (dflt : string) (l : list string) :
  l <> [] ->
  In (most_common1 dflt (counter l)) l
  /\ forall k, occurrences k l <= occurrences (most_common1 dflt (counter l)) l.
Proof.
  intros Hne. destruct (counter_keys l) as [Hnd Hkeys].
  destruct (counter l) as [|kv d] eqn:Ed.
  { destruct l as [|k l]; [contradiction|].
    exfalso. apply (proj2 (Hkeys k)). left. reflexivity. }
  cbn [most_common1].
  destruct (max_by_spec snd d kv) as [Hin Hmax].
  set (best := max_by snd kv d) in *.
  assert (Hbest : get0 (fst best) (kv :: d) = snd best).
  { apply get0_entry; [exact Hnd|]. destruct best. exact Hin. }
  assert (Hbest_in : In (fst best) l).
  { apply Hkeys. apply List.in_map. exact Hin. }
  split; [exact Hbest_in|].
  intros k. rewrite <- !get0_counter, Ed, Hbest.
  destruct (get0_found (kv :: d) k) as [H0|Hentry].
  - rewrite H0. pose proof (occurrences_positive _ _ Hbest_in) as Hpos.
    rewrite <- get0_counter, Ed, Hbest in Hpos. lia.
  - exact (Hmax _ Hentry).
Qed.

(** ** The summary of a cluster and of an area *)

Section SummaryProperties.

Context {rt : Runtime}.

(** X9.  The dominant emoji of a returned cluster is the emoji of one of its
    members, no emoji is more frequent among the members, and the percentage
    of the cluster is the mood percentage of its members. *)
Theorem cluster_summary_of_members (moods : list Mood.t) (clusters : list Cluster.t)
  (cluster : Cluster.t) :
  cluster_moods moods = Ok clusters -> In cluster clusters ->
  In (Cluster.dominant_emoji cluster) (List.map Mood.emoji (Cluster.moods cluster))
  /\ (forall emoji,
        occurrences emoji (List.map Mood.emoji (Cluster.moods cluster))
        <= occurrences (Cluster.dominant_emoji cluster)
             (List.map Mood.emoji (Cluster.moods cluster)))
  /\ Cluster.mood_percentage cluster
     = _calculate_mood_percentage (Cluster.moods cluster).
Proof.
  intros Hrun Hin.
  destruct (cluster_moods_placed moods clusters Hrun) as [_ Hplaced].
  rewrite List.Forall_forall in Hplaced.
  destruct (Hplaced cluster Hin) as (seed & others & before & after & _ & _ & ->).
  cbn [make_cluster Cluster.moods Cluster.dominant_emoji Cluster.mood_percentage].
  destruct (most_common1_dominant "" (List.map Mood.emoji (seed :: others)))
    as [Hdom Hmax]; [discriminate|].
  split; [exact Hdom|]. split; [exact Hmax|reflexivity].
Qed.

Lemma area_fold (lat lng radius_km : float) (moods acc area_moods : list Mood.t) :
  foldM (area_step lat lng radius_km) moods acc = Ok area_moods ->
  area_moods = acc ++ List.filter (within_radius lat lng radius_km) moods.
Proof.
  revert acc; induction moods as [|mood moods IH]; intros acc; cbn [foldM List.filter].
  - intros H. injection H as <-. rewrite List.app_nil_r. reflexivity.
  - intros H. apply bind_Ok in H as (acc' & Hstep & H).
    unfold area_step in Hstep. apply bind_Ok in Hstep as (distance & Hd & Hstep).
    unfold within_radius at 1. rewrite Hd.
    rewrite (IH acc' H).
    destruct (distance <=? radius_km)%float; injection Hstep as <-.
    + rewrite <- List.app_assoc. reflexivity.
    + reflexivity.
Qed.

(** X10.  When the area aggregation returns, the count is the number of
    observations within the radius; with none the result is the neutral
    default, otherwise the percentage is the mood percentage of these
    observations and the dominant emoji is the most frequent of theirs. *)
Theorem get_area_mood_summary (moods : list Mood.t) (lat lng radius_km : float)
  (area : AreaMood.t) :
  get_area_mood moods lat lng radius_km = Ok area ->
  AreaMood.moods_count area
  = Z.of_nat (List.length (List.filter (within_radius lat lng radius_km) moods))
  /\ 0 <= AreaMood.moods_count area <= Z.of_nat (List.length moods)
  /\ (List.filter (within_radius lat lng radius_km) moods = [] ->
      area = neutral_area_mood)
  /\ (List.filter (within_radius lat lng radius_km) moods <> [] ->
      AreaMood.mood_percentage area
      = _calculate_mood_percentage
          (List.filter (within_radius lat lng radius_km) moods)
      /\ In (AreaMood.dominant_emoji area)
            (List.map Mood.emoji (List.filter (within_radius lat lng radius_km) moods))
      /\ forall emoji,
           occurrences emoji
             (List.map Mood.emoji (List.filter (within_radius lat lng radius_km) moods))
           <= occurrences (AreaMood.dominant_emoji area)
                (List.map Mood.emoji
                   (List.filter (within_radius lat lng radius_km) moods))).
Proof.
  unfold get_area_mood. intros H.
  apply bind_Ok in H as (area_moods & Hfold & H).
  apply area_fold in Hfold. cbn [List.app] in Hfold. subst area_moods.
  pose proof (List.filter_length_le (within_radius lat lng radius_km) moods) as Hle.
  destruct (List.filter (within_radius lat lng radius_km) moods) as [|m inside] eqn:E;
    injection H as <-; rewrite ?E in Hle; cbn [List.length] in Hle.
  - cbn. split; [reflexivity|]. split; [lia|]. split; [reflexivity|].
    intros Hne. contradiction.
  - cbn [AreaMood.moods_count AreaMood.mood_percentage AreaMood.dominant_emoji].
    split; [reflexivity|]. split; [lia|]. split; [discriminate|].
    intros _. split; [reflexivity|].
    apply most_common1_dominant. discriminate.
Qed.

Lemma area_fold_raises (lat lng radius_km : float) (moods acc : list Mood.t) (e : exn) :
  foldM (area_step lat lng radius_km) moods acc = Raise e
  <-> exists before mood after,
        moods = before ++ mood :: after
        /\ (forall m, In m before ->
              exists distance,
                _calculate_distance lat lng (Mood.latitude m) (Mood.longitude m)
                = Ok distance)
        /\ _calculate_distance lat lng (Mood.latitude mood) (Mood.longitude mood)
           = Raise e.
Proof.
  revert acc; induction moods as [|x moods IH]; intros acc; cbn [foldM].
  - split; [discriminate|]. intros (before & mood & after & Heq & _).
    destruct before; discriminate.
  - unfold area_step at 1.
    destruct (_calculate_distance lat lng (Mood.latitude x) (Mood.longitude x))
      as [distance|e'] eqn:Ed; cbn [bind].
    + assert (Hnext : forall acc', foldM (area_step lat lng radius_km) moods acc' = Raise e
                       <-> exists before mood after,
                             x :: moods = before ++ mood :: after
                             /\ (forall m, In m before ->
                                   exists distance,
                                     _calculate_distance lat lng (Mood.latitude m)
                                       (Mood.longitude m) = Ok distance)
                             /\ _calculate_distance lat lng (Mood.latitude mood)
                                  (Mood.longitude mood) = Raise e).
      { intros acc'. rewrite IH. split.
        - intros (before & mood & after & Heq & Hok & Hraise).
          exists (x :: before), mood, after. split; [rewrite Heq; reflexivity|].
          split; [|exact Hraise].
          intros m [<-|Hm]; [exists distance; exact Ed|exact (Hok m Hm)].
        - intros (before & mood & after & Heq & Hok & Hraise).
          destruct before as [|b before].
          + injection Heq as <- _. rewrite Ed in Hraise. discriminate.
          + injection Heq as <- Heq. exists before, mood, after.
            split; [exact Heq|]. split; [|exact Hraise].
            intros m Hm. apply Hok. right. exact Hm. }
      destruct (distance <=? radius_km)%float; apply Hnext.
    + split.
      * intros H. injection H as <-. exists [], x, moods.
        split; [reflexivity|]. split; [intros m []|exact Ed].
      * intros (before & mood & after & Heq & Hok & Hraise).
        destruct before as [|b before].
        -- injection Heq as <- _. rewrite Ed in Hraise. injection Hraise as ->.
           reflexivity.
        -- injection Heq as <- _.
           destruct (Hok x (or_introl eq_refl)) as (distance & Hd).
           rewrite Ed in Hd. discriminate.
Qed.

(** X11.  The area aggregation raises exactly when the distance to some
    observation cannot be computed, with the exception of the first such
    observation; it makes no difference whether that observation would be
    within the radius. *)
Theorem get_area_mood_raises (moods : list Mood.t) (lat lng radius_km : float) (e : exn) :
  get_area_mood moods lat lng radius_km = Raise e
  <-> exists before mood after,
        moods = before ++ mood :: after
        /\ (forall m, In m before ->
              exists distance,
                _calculate_distance lat lng (Mood.latitude m) (Mood.longitude m)
                = Ok distance)
        /\ _calculate_distance lat lng (Mood.latitude mood) (Mood.longitude mood)
           = Raise e.
Proof.
  rewrite <- (area_fold_raises lat lng radius_km moods [] e).
  unfold get_area_mood.
  destruct (foldM (area_step lat lng radius_km) moods []) as [[|m area_moods]|e'];
    cbn [bind]; split; intros H;
    first [discriminate H | injection H as ->; reflexivity].
Qed.

End SummaryProperties.

(** ** More on trends *)

(** X12.  [emoji_counts] is the histogram of the whole input, whatever the
    periods: every emoji is counted as often as it occurs, each key once,
    and the counts add up to the number of observations. *)
Theorem trend_emoji_counts (now : Z) (moods : list Mood.t) (hours : Z)
  (report : TrendReport.t) :
  get_mood_trends now moods hours = Ok report ->
  (forall emoji, get0 emoji (TrendReport.emoji_counts report)
                 = occurrences emoji (List.map Mood.emoji moods))
  /\ List.NoDup (List.map fst (TrendReport.emoji_counts report))
  /\ (forall emoji, In emoji (List.map fst (TrendReport.emoji_counts report))
                    <-> In emoji (List.map Mood.emoji moods))
  /\ total_count (TrendReport.emoji_counts report) = Z.of_nat (List.length moods).
Proof.
  rewrite get_mood_trends_bounds. intros H.
  apply bind_Ok in H as (bounds & _ & H). injection H as <-.
  cbn [TrendReport.emoji_counts].
  destruct (counter_keys (List.map Mood.emoji moods)) as [Hnd Hkeys].
  split; [intros emoji; apply get0_counter|]. split; [exact Hnd|].
  split; [exact Hkeys|].
  rewrite total_count_counter, List.length_map. reflexivity.
Qed.

Lemma mapM_nth_error {A B : Type} (f : A -> res B) (l : list A) (ys : list B) :
  mapM f l = Ok ys ->
  forall i y, nth_error ys i = Some y ->
    exists x, nth_error l i = Some x /\ f x = Ok y.
Proof.
  revert ys; induction l as [|x l IH]; cbn [mapM]; intros ys H.
  - injection H as <-. intros [|i] y Hy; discriminate.
  - apply bind_Ok in H as (y0 & Hy0 & H). apply bind_Ok in H as (ys' & Hys & H).
    injection H as <-. intros [|i] y Hy; cbn [nth_error] in *.
    + injection Hy as <-. exists x. auto.
    + exact (IH ys' Hys i y Hy).
Qed.

Lemma period_bounds_adjacent (now : Z) (period_hours : float) (i : Z) (b b' : Z * Z) :
  period_bounds now period_hours i = Ok b ->
  period_bounds now period_hours (i + 1) = Ok b' ->
  fst b = snd b'.
Proof.
  unfold period_bounds. intros H H'.
  apply bind_Ok in H as (d_end & _ & H). apply bind_Ok in H as (period_end & _ & H).
  apply bind_Ok in H as (d_start & Hd & H). apply bind_Ok in H as (period_start & Hs & H).
  injection H as <-.
  rewrite Hd, bind_ret, Hs, bind_ret in H'.
  apply bind_Ok in H' as (d_start' & _ & H'). apply bind_Ok in H' as (period_start' & _ & H').
  injection H' as <-. reflexivity.
Qed.

Lemma period_indices (i : nat) (x y : Z) :
  nth_error [0; 1; 2; 3; 4; 5] i = Some x ->
  nth_error [0; 1; 2; 3; 4; 5] (S i) = Some y ->
  y = x + 1.
Proof.
  do 6 (destruct i as [|i]; [cbn; intros Hx Hy; injection Hx as <-;
                             first [injection Hy as <-; reflexivity | discriminate Hy]|]).
  cbn. destruct i; discriminate.
Qed.

(** X13.  Consecutive periods share their boundary: whatever the span, a
    period starts at the very instant at which the next, older one ends.
    Both ends are inclusive, so with the default span of 24 hours an
    observation stamped exactly 4, 8, 12, 16 or 20 hours before the clock
    reading is counted in two periods. *)
Theorem periods_share_boundary :
  (forall (now hours : Z) (bounds : list (Z * Z)) (i : nat) (b b' : Z * Z),
     all_bounds now hours = Ok bounds ->
     nth_error bounds i = Some b ->
     nth_error bounds (S i) = Some b' ->
     fst b = snd b')
  /\ (forall (now : Z) (moods : list Mood.t) (mood : Mood.t) (k : Z),
        Datetime.us_per_day <= now <= Datetime.max_datetime ->
        1 <= k <= 5 ->
        In mood moods ->
        Mood.timestamp mood = now - k * (4 * Datetime.us_per_hour) ->
        exists bounds newer older,
          all_bounds now 24 = Ok bounds
          /\ nth_error bounds (Z.to_nat (k - 1)) = Some newer
          /\ nth_error bounds (Z.to_nat k) = Some older
          /\ In mood (period_moods moods newer)
          /\ In mood (period_moods moods older)).
Proof.
  split.
  - unfold all_bounds. intros now hours bounds i b b' H Hb Hb'.
    apply bind_Ok in H as (period_hours & _ & H).
    destruct (mapM_nth_error _ _ _ H i b Hb) as (x & Hx & Hpx).
    destruct (mapM_nth_error _ _ _ H (S i) b' Hb') as (y & Hy & Hpy).
    rewrite (period_indices i x y Hx Hy) in Hpy.
    exact (period_bounds_adjacent now period_hours x b b' Hpx Hpy).
  - intros now moods mood k Hnow Hk Hin Hts.
    assert (Hpos : 0 < Datetime.us_per_hour) by (vm_compute; reflexivity).
    pose proof (all_bounds_default now Hnow) as H.
    assert (Hcases : k = 1 \/ k = 2 \/ k = 3 \/ k = 4 \/ k = 5) by lia.
    destruct Hcases as [-> | [-> | [-> | [-> | ->]]]];
      (eexists; eexists; eexists;
       split; [exact H|]; split; [reflexivity|]; split; [reflexivity|];
       unfold period_moods;
       split; apply List.filter_In; (split; [exact Hin|]);
       unfold in_period; cbn [fst snd]; rewrite Hts;
       apply andb_true_iff; split; apply Z.leb_le; lia).
Qed.

Lemma period_moods_none (moods : list Mood.t) (bounds : Z * Z) :
  (forall m, In m moods ->
     Mood.timestamp m < fst bounds \/ snd bounds < Mood.timestamp m) ->
  period_moods moods bounds = [].
Proof.
  intros H. unfold period_moods.
  induction moods as [|m moods IH]; cbn [List.filter]; [reflexivity|].
  assert (Hout : in_period bounds m = false).
  { unfold in_period. apply andb_false_iff.
    destruct (H m (or_introl eq_refl)); [left|right]; apply Z.leb_gt; assumption. }
  rewrite Hout. apply IH. intros m' Hm'. apply H. right. exact Hm'.
Qed.

(** X14.  With the default span of 24 hours the trend computation returns for
    every clock reading from the second day of the calendar on; period [i]
    runs from [now - 4 (i + 1)] hours to [now - 4 i] hours.  Observations
    older than 24 hours or stamped after [now] count in no period: when
    there are no others the percentages are six zeros and the direction is
    "stable". *)
Theorem get_mood_trends_default_span (now : Z) (moods : list Mood.t) :
  Datetime.us_per_day <= now <= Datetime.max_datetime ->
  exists report,
    get_mood_trends now moods 24 = Ok report
    /\ TrendReport.mood_percentages report
       = List.map (fun i => snd (period_summary moods
                                   (now - (i + 1) * (4 * Datetime.us_per_hour),
                                    now - i * (4 * Datetime.us_per_hour))))
                  [0; 1; 2; 3; 4; 5]
    /\ ((forall m, In m moods ->
           Mood.timestamp m < now - 24 * Datetime.us_per_hour
           \/ now < Mood.timestamp m) ->
        TrendReport.mood_percentages report = [0; 0; 0; 0; 0; 0]
        /\ TrendReport.trend_direction report = "stable").
Proof.
  intros Hnow. rewrite get_mood_trends_bounds, (all_bounds_default now Hnow), bind_ret.
  eexists. split; [reflexivity|].
  cbn [TrendReport.mood_percentages TrendReport.trend_direction].
  rewrite !List.map_map. split; [reflexivity|].
  intros Hout.
  assert (Hzero : forall i, 0 <= i <= 5 ->
            snd (period_summary moods (now - (i + 1) * (4 * Datetime.us_per_hour),
                                       now - i * (4 * Datetime.us_per_hour))) = 0).
  { intros i Hi. apply period_summary_empty. apply period_moods_none.
    intros m Hm. cbn [fst snd]. specialize (Hout m Hm).
    unfold Datetime.us_per_hour in *. lia. }
  cbn [List.map].
  rewrite (Hzero 0), (Hzero 1), (Hzero 2), (Hzero 3), (Hzero 4), (Hzero 5) by lia.
  split; reflexivity.
Qed.

(** ** The callers *)

Lemma filter_sublist {A : Type} (f : A -> bool) (l : list A) :
  List.filter f l `sublist_of` l.
Proof.
  induction l as [|x l IH]; cbn [List.filter]; [constructor|].
  destruct (f x); [apply sublist_skip|apply sublist_cons]; exact IH.
Qed.

Lemma filter_all {A : Type} (f : A -> bool) (l : list A) :
  (forall x, In x l -> f x = true) -> List.filter f l = l.
Proof.
  induction l as [|x l IH]; cbn [List.filter]; intros H; [reflexivity|].
  rewrite (H x (or_introl eq_refl)). f_equal. apply IH.
  intros y Hy. apply H. right. exact Hy.
Qed.

Lemma str_in_In (x : string) (l : list string) : str_in x l = true <-> In x l.
Proof.
  unfold str_in. rewrite List.existsb_exists. split.
  - intros (y & Hy & Heq). apply String.eqb_eq in Heq. subst y. exact Hy.
  - intros Hin. exists x. split; [exact Hin|apply String.eqb_refl].
Qed.

Lemma filterM_spec {A : Type} (keep : A -> res bool) (l kept : list A) :
  App.filterM keep l = Ok kept ->
  kept = List.filter (fun x => match keep x with
                               | Ok k => k
                               | Raise _ => false
                               end) l.
Proof.
  revert kept; induction l as [|x l IH]; cbn [App.filterM List.filter]; intros kept H.
  - injection H as <-. reflexivity.
  - apply bind_Ok in H as (k & Hk & H). apply bind_Ok in H as (kept' & Hkept & H).
    injection H as <-. rewrite Hk, (IH kept' Hkept). reflexivity.
Qed.

Section CallerProperties.

Context {rt : Runtime}.

Lemma get_mood_data_for_api_length (rows : list Mood.t) (now : Z)
  (lat lng radius hours : option float) (emojis : option (list string))
  (result : list Mood.t) :
  App.get_mood_data_for_api rows now lat lng radius hours emojis = Ok result ->
  (List.length result <= List.length rows)%nat.
Proof.
  unfold App.get_mood_data_for_api. intros H.
  apply bind_Ok in H as (timed & Htimed & H).
  assert (Ht : (List.length timed <= List.length rows)%nat).
  { destruct hours as [h|].
    - apply bind_Ok in Htimed as (delta & _ & Htimed).
      apply bind_Ok in Htimed as (cutoff & _ & Htimed). injection Htimed as <-.
      etransitivity; [apply List.filter_length_le|]. rewrite List.length_map. lia.
    - injection Htimed as <-. rewrite List.length_map. lia. }
  assert (Hc : (List.length
                  (match emojis with
                   | Some (e :: es) =>
                       List.filter (fun mood => str_in (Mood.emoji mood) (e :: es)) timed
                   | _ => timed
                   end) <= List.length rows)%nat).
  { destruct emojis as [[|e es]|]; try exact Ht.
    etransitivity; [apply List.filter_length_le|exact Ht]. }
  destruct lat as [la|], lng as [ln|], radius as [r|];
    try (injection H as <-; exact Hc).
  apply filterM_spec in H. rewrite H.
  etransitivity; [apply List.filter_length_le|exact Hc].
Qed.

(** X15.  What [get_mood_data_for_api] returns: dicts of rows, in the order of the
    rows, each with a text, and each passing every filter that was asked
    for: strictly newer than the cutoff, an emoji of the list, within the
    radius. *)
Theorem get_mood_data_for_api_filters (rows : list Mood.t) (now : Z)
  (lat lng radius hours : option float) (emojis : option (list string))
  (result : list Mood.t) :
  App.get_mood_data_for_api rows now lat lng radius hours emojis = Ok result ->
  result `sublist_of` List.map App.row_dict rows
  /\ (forall m, In m result -> exists s, Mood.text m = Some s)
  /\ (forall h, hours = Some h ->
        exists delta cutoff_time,
          Datetime.timedelta_hours h = Ok delta
          /\ Datetime.sub_timedelta now delta = Ok cutoff_time
          /\ forall m, In m result -> cutoff_time < Mood.timestamp m)
  /\ (forall e es, emojis = Some (e :: es) ->
        forall m, In m result -> In (Mood.emoji m) (e :: es))
  /\ (forall la ln r, lat = Some la -> lng = Some ln -> radius = Some r ->
        forall m, In m result -> within_radius la ln r m = true).
Proof.
  unfold App.get_mood_data_for_api. intros H.
  apply bind_Ok in H as (timed & Htimed & H).
  set (base := List.map App.row_dict rows) in *.
  set (chosen := match emojis with
                 | Some (e :: es) =>
                     List.filter (fun mood => str_in (Mood.emoji mood) (e :: es)) timed
                 | _ => timed
                 end) in *.
  assert (Hbase : forall m, In m base -> exists s, Mood.text m = Some s).
  { intros m Hm. unfold base in Hm. apply List.in_map_iff in Hm as (row & <- & _).
    cbn. eexists. reflexivity. }
  assert (Htimed_sub : timed `sublist_of` base).
  { destruct hours as [h|].
    - apply bind_Ok in Htimed as (delta & _ & Htimed).
      apply bind_Ok in Htimed as (cutoff & _ & Htimed). injection Htimed as <-.
      apply filter_sublist.
    - injection Htimed as <-. reflexivity. }
  assert (Hchosen_sub : chosen `sublist_of` timed).
  { unfold chosen. destruct emojis as [[|e es]|]; try reflexivity. apply filter_sublist. }
  assert (Hresult :
            result `sublist_of` chosen
            /\ forall la ln r, lat = Some la -> lng = Some ln -> radius = Some r ->
                 forall m, In m result -> within_radius la ln r m = true).
  { destruct lat as [la|], lng as [ln|], radius as [r|];
      try (injection H as <-; split; [reflexivity|intros; discriminate]).
    apply filterM_spec in H. split; [rewrite H; apply filter_sublist|].
    intros la' ln' r' Hla Hln Hr m Hm.
    injection Hla as <-. injection Hln as <-. injection Hr as <-.
    rewrite H in Hm. apply List.filter_In in Hm as [_ Hm].
    unfold App.in_radius in Hm. unfold within_radius.
    destruct (_calculate_distance la ln (Mood.latitude m) (Mood.longitude m));
      [exact Hm|discriminate]. }
  destruct Hresult as [Hresult_sub Hloc].
  assert (Hin_chosen : forall m, In m result -> In m chosen).
  { intros m Hm. exact (sublist_In _ _ _ Hresult_sub Hm). }
  assert (Hin_timed : forall m, In m result -> In m timed).
  { intros m Hm. exact (sublist_In _ _ _ Hchosen_sub (Hin_chosen m Hm)). }
  split; [transitivity chosen; [exact Hresult_sub|];
          transitivity timed; [exact Hchosen_sub|exact Htimed_sub]|].
  split; [intros m Hm; apply Hbase;
          exact (sublist_In _ _ _ Htimed_sub (Hin_timed m Hm))|].
  split; [|split; [|exact Hloc]].
  - intros h Hh. subst hours.
    apply bind_Ok in Htimed as (delta & Hdelta & Htimed).
    apply bind_Ok in Htimed as (cutoff & Hcutoff & Htimed). injection Htimed as Htimed.
    exists delta, cutoff. split; [exact Hdelta|]. split; [exact Hcutoff|].
    intros m Hm. apply Hin_timed in Hm. rewrite <- Htimed in Hm.
    apply List.filter_In in Hm as [_ Hm]. apply Z.ltb_lt. exact Hm.
  - intros e es He m Hm. subst emojis. apply Hin_chosen in Hm. unfold chosen in Hm.
    apply List.filter_In in Hm as [_ Hm]. apply str_in_In. exact Hm.
Qed.

(** X16.  The filter of [/api/events] on [min_confidence] changes nothing up to
    36, the default 30 included: the events of [detect_events] all have a
    confidence of at least 36. *)
Theorem get_events_min_confidence (rows : list Mood.t) (now : Z)
  (lat lng radius : option float) (hours : float) (min_confidence : Z) :
  min_confidence <= 36 ->
  App.get_events rows now lat lng radius hours min_confidence
  = App.get_events rows now lat lng radius hours 0.
Proof.
  intros Hmin. unfold App.get_events.
  destruct (App.get_mood_data_for_api rows now lat lng radius (Some hours) None)
    as [moods|e]; [|reflexivity].
  rewrite !bind_ret.
  destruct (detect_events moods) as [events|e] eqn:E; [|reflexivity].
  rewrite !bind_ret. cbn [Z.ltb Z.compare].
  destruct (0 <? min_confidence); [|reflexivity].
  f_equal. apply filter_all. intros ev Hev.
  pose proof (detect_events_confidence_bounds moods events E ev Hev) as Hconf.
  apply Z.leb_le. lia.
Qed.

(** X17.  The entry [total_moods] that [/api/trends] adds is the sum of the counts
    of [emoji_counts], and at most the number of rows; the report has six
    percentages. *)
Theorem get_trends_total_moods (rows : list Mood.t) (now hours : Z)
  (lat lng radius : option float) (trends : TrendReport.t) (total_moods : Z) :
  App.get_trends rows now hours lat lng radius = Ok (trends, total_moods) ->
  total_moods = total_count (TrendReport.emoji_counts trends)
  /\ 0 <= total_moods <= Z.of_nat (List.length rows)
  /\ List.length (TrendReport.mood_percentages trends) = 6%nat.
Proof.
  unfold App.get_trends. intros H.
  apply bind_Ok in H as (moods & Hmoods & H).
  apply bind_Ok in H as (report & Hreport & H). injection H as <- <-.
  pose proof (get_mood_data_for_api_length _ _ _ _ _ _ _ _ Hmoods) as Hlen.
  rewrite get_mood_trends_bounds in Hreport.
  apply bind_Ok in Hreport as (bounds & Hb & Hreport). injection Hreport as <-.
  cbn [TrendReport.mood_percentages TrendReport.emoji_counts].
  rewrite total_count_counter, !List.length_map.
  split; [reflexivity|]. split; [lia|].
  exact (all_bounds_length now hours bounds Hb).
Qed.

(** X18.  A time filter that is not a number, or infinite, makes the data query
    and [/api/events] raise before any row is looked at: [ValueError] for a
    NaN, [OverflowError] for an infinity. *)
Theorem get_events_bad_hours (rows : list Mood.t) (now : Z)
  (lat lng radius : option float) (hours : float) (emojis : option (list string))
  (min_confidence : Z) :
  is_nan hours = true \/ is_infinity hours = true ->
  let e := if is_nan hours then ValueError else OverflowError in
  App.get_mood_data_for_api rows now lat lng radius (Some hours) emojis = Raise e
  /\ App.get_events rows now lat lng radius hours min_confidence = Raise e.
Proof.
  intros Hbad.
  assert (Hdelta : Datetime.timedelta_hours hours
                   = Raise (if is_nan hours then ValueError else OverflowError)).
  { unfold Datetime.timedelta_hours.
    destruct (is_nan hours); [reflexivity|].
    destruct Hbad as [Hbad|Hbad]; [discriminate|]. rewrite Hbad. reflexivity. }
  cbv zeta.
  assert (Hdata : forall emojis',
            App.get_mood_data_for_api rows now lat lng radius (Some hours) emojis'
            = Raise (if is_nan hours then ValueError else OverflowError)).
  { intros emojis'. unfold App.get_mood_data_for_api. rewrite Hdelta. reflexivity. }
  split; [apply Hdata|].
  unfold App.get_events. rewrite Hdata. reflexivity.
Qed.

End CallerProperties.

(** ** The further properties on the sample inputs *)

Lemma sample_now_in_range :
  Datetime.us_per_day <= Sample.now <= Datetime.max_datetime.
Proof. split; vm_compute; discriminate. Qed.

Lemma sample_concert_clusters :
  @cluster_moods Sample.runtime Sample.concert_six
  = Ok [@make_cluster Sample.runtime (List.firstn 5 Sample.concert_six)].
Proof. vm_compute. reflexivity. Qed.

Lemma mood_percentage_ignores_unknown_emoji_witness :
  _calculate_mood_percentage ([Sample.mood 99 "🎉" None 0 0] ++ Sample.twenty_five)
  = _calculate_mood_percentage Sample.twenty_five.
Proof.
  apply (mood_percentage_ignores_unknown_emoji Sample.twenty_five
           [Sample.mood 99 "🎉" None 0 0]).
  - intros m [<-|[]]. vm_compute. reflexivity.
  - apply Permutation_app_comm.
Defined.

Lemma cluster_members_newest_first_witness :
  (forall member,
      In member (Cluster.moods
                   (@make_cluster Sample.runtime (List.firstn 5 Sample.concert_six))) ->
      In member Sample.concert_six)
  /\ StronglySorted not_older
       (Cluster.moods (@make_cluster Sample.runtime (List.firstn 5 Sample.concert_six)))
  /\ exists seed others,
       Cluster.moods (@make_cluster Sample.runtime (List.firstn 5 Sample.concert_six))
       = seed :: others
       /\ forall member,
            In member
               (Cluster.moods
                  (@make_cluster Sample.runtime (List.firstn 5 Sample.concert_six))) ->
            Mood.timestamp member <= Mood.timestamp seed.
Proof.
  apply (@cluster_members_newest_first Sample.runtime Sample.concert_six
           [@make_cluster Sample.runtime (List.firstn 5 Sample.concert_six)]).
  - exact sample_concert_clusters.
  - left. reflexivity.
Defined.

Lemma cluster_member_ids_distinct_witness :
  List.NoDup
    (member_ids [@make_cluster Sample.runtime (List.firstn 5 Sample.concert_six)]).
Proof.
  exact (@cluster_member_ids_distinct Sample.runtime Sample.concert_six _
           sample_concert_clusters).
Defined.

Lemma cluster_count_bound_witness :
  5 * Z.of_nat
        (List.length [@make_cluster Sample.runtime (List.firstn 5 Sample.concert_six)])
  <= Z.of_nat (List.length Sample.concert_six)
  /\ (Z.of_nat (List.length Sample.concert_six) < 5 ->
      [@make_cluster Sample.runtime (List.firstn 5 Sample.concert_six)] = []).
Proof.
  exact (@cluster_count_bound Sample.runtime Sample.concert_six _
           sample_concert_clusters).
Defined.

Lemma cluster_moods_single_cluster_witness :
  @cluster_moods Sample.runtime Sample.silent_five
  = Ok [@make_cluster Sample.runtime Sample.silent_five].
Proof.
  apply (@cluster_moods_single_cluster Sample.runtime Sample.silent_five
           (Sample.mood 1 "😊" None 0 2)
           [Sample.mood 2 "😊" (Some "") 1 4; Sample.mood 3 "😊" None 2 6;
            Sample.mood 4 "😊" None 3 8; Sample.mood 5 "😊" None 4 10]).
  - vm_compute. reflexivity.
  - cbn. repeat constructor; cbn; intuition discriminate.
  - repeat constructor; vm_compute; reflexivity.
  - vm_compute. discriminate.
Defined.

Lemma detect_events_describe_clusters_witness :
  exists events,
    @detect_events Sample.runtime Sample.concert_six = Ok events
    /\ exists clusters,
         @cluster_moods Sample.runtime Sample.concert_six = Ok clusters
         /\ (List.length events <= List.length clusters)%nat
         /\ forall ev, In ev events ->
              exists cluster all_keywords,
                In cluster clusters
                /\ In (Event.type ev, all_keywords) EVENT_KEYWORDS
                /\ Event.type ev <> "unknown"
                /\ Event.keywords ev = found_in (@all_text Sample.runtime cluster) all_keywords
                /\ Event.keywords ev <> []
                /\ 36 <= Event.confidence ev <= 100
                /\ Event.location ev = Cluster.center cluster
                /\ Event.dominant_emoji ev = Cluster.dominant_emoji cluster
                /\ Event.mood_percentage ev = Cluster.mood_percentage cluster
                /\ Event.moods_count ev = Z.of_nat (List.length (Cluster.moods cluster))
                /\ 5 <= Event.moods_count ev.
Proof.
  destruct (@detect_events Sample.runtime Sample.concert_six) as [events|e] eqn:E.
  - exists events. split; [reflexivity|].
    exact (@detect_events_describe_clusters Sample.runtime Sample.concert_six events E).
  - vm_compute in E. discriminate E.
Defined.

Lemma cluster_summary_of_members_witness :
  In (Cluster.dominant_emoji
        (@make_cluster Sample.runtime (List.firstn 5 Sample.concert_six)))
     (List.map Mood.emoji
        (Cluster.moods (@make_cluster Sample.runtime (List.firstn 5 Sample.concert_six))))
  /\ (forall emoji,
        occurrences emoji
          (List.map Mood.emoji
             (Cluster.moods
                (@make_cluster Sample.runtime (List.firstn 5 Sample.concert_six))))
        <= occurrences
             (Cluster.dominant_emoji
                (@make_cluster Sample.runtime (List.firstn 5 Sample.concert_six)))
             (List.map Mood.emoji
                (Cluster.moods
                   (@make_cluster Sample.runtime (List.firstn 5 Sample.concert_six)))))
  /\ Cluster.mood_percentage
       (@make_cluster Sample.runtime (List.firstn 5 Sample.concert_six))
     = _calculate_mood_percentage
         (Cluster.moods (@make_cluster Sample.runtime (List.firstn 5 Sample.concert_six))).
Proof.
  apply (@cluster_summary_of_members Sample.runtime Sample.concert_six
           [@make_cluster Sample.runtime (List.firstn 5 Sample.concert_six)]).
  - exact sample_concert_clusters.
  - left. reflexivity.
Defined.

Lemma get_area_mood_summary_witness :
  exists area,
    @get_area_mood Sample.runtime Sample.concert_six 55.75 37.625 5 = Ok area
    /\ AreaMood.moods_count area
       = Z.of_nat (List.length
                     (List.filter (@within_radius Sample.runtime 55.75 37.625 5)
                                  Sample.concert_six))
    /\ 0 <= AreaMood.moods_count area <= Z.of_nat (List.length Sample.concert_six)
    /\ (List.filter (@within_radius Sample.runtime 55.75 37.625 5) Sample.concert_six = [] ->
        area = neutral_area_mood)
    /\ (List.filter (@within_radius Sample.runtime 55.75 37.625 5) Sample.concert_six <> [] ->
        AreaMood.mood_percentage area
        = _calculate_mood_percentage
            (List.filter (@within_radius Sample.runtime 55.75 37.625 5) Sample.concert_six)
        /\ In (AreaMood.dominant_emoji area)
              (List.map Mood.emoji
                 (List.filter (@within_radius Sample.runtime 55.75 37.625 5)
                              Sample.concert_six))
        /\ forall emoji,
             occurrences emoji
               (List.map Mood.emoji
                  (List.filter (@within_radius Sample.runtime 55.75 37.625 5)
                               Sample.concert_six))
             <= occurrences (AreaMood.dominant_emoji area)
                  (List.map Mood.emoji
                     (List.filter (@within_radius Sample.runtime 55.75 37.625 5)
                                  Sample.concert_six))).
Proof.
  destruct (@get_area_mood Sample.runtime Sample.concert_six 55.75 37.625 5)
    as [area|e] eqn:E.
  - exists area. split; [reflexivity|].
    exact (@get_area_mood_summary Sample.runtime Sample.concert_six 55.75 37.625 5 area E).
  - vm_compute in E. discriminate E.
Defined.

Lemma trend_emoji_counts_witness :
  exists report,
    get_mood_trends Sample.now Sample.twenty_five 24 = Ok report
    /\ (forall emoji, get0 emoji (TrendReport.emoji_counts report)
                      = occurrences emoji (List.map Mood.emoji Sample.twenty_five))
    /\ List.NoDup (List.map fst (TrendReport.emoji_counts report))
    /\ (forall emoji, In emoji (List.map fst (TrendReport.emoji_counts report))
                      <-> In emoji (List.map Mood.emoji Sample.twenty_five))
    /\ total_count (TrendReport.emoji_counts report)
       = Z.of_nat (List.length Sample.twenty_five).
Proof.
  destruct (get_mood_trends Sample.now Sample.twenty_five 24) as [report|e] eqn:E.
  - exists report. split; [reflexivity|].
    exact (trend_emoji_counts Sample.now Sample.twenty_five 24 report E).
  - vm_compute in E. discriminate E.
Defined.

Lemma periods_share_boundary_witness :
  (exists bounds b b',
     all_bounds Sample.now 24 = Ok bounds
     /\ nth_error bounds 0 = Some b
     /\ nth_error bounds 1 = Some b'
     /\ fst b = snd b')
  /\ Mood.timestamp (Sample.mood 1 "😊" None 0 240)
     = Sample.now - 1 * (4 * Datetime.us_per_hour)
  /\ exists bounds newer older,
       all_bounds Sample.now 24 = Ok bounds
       /\ nth_error bounds 0 = Some newer
       /\ nth_error bounds 1 = Some older
       /\ In (Sample.mood 1 "😊" None 0 240)
             (period_moods Sample.four_hours_ago newer)
       /\ In (Sample.mood 1 "😊" None 0 240)
             (period_moods Sample.four_hours_ago older).
Proof.
  pose proof (all_bounds_default Sample.now sample_now_in_range) as H.
  assert (Hts : Mood.timestamp (Sample.mood 1 "😊" None 0 240)
                = Sample.now - 1 * (4 * Datetime.us_per_hour))
    by (vm_compute; reflexivity).
  split; [|split; [exact Hts|]].
  - eexists. eexists. eexists.
    split; [exact H|]. split; [reflexivity|]. split; [reflexivity|].
    exact (proj1 periods_share_boundary Sample.now 24 _ 0%nat _ _ H eq_refl eq_refl).
  - exact (proj2 periods_share_boundary Sample.now Sample.four_hours_ago
             (Sample.mood 1 "😊" None 0 240) 1 sample_now_in_range
             (conj (Z.le_refl 1) (Zle_bool_imp_le 1 5 eq_refl))
             (or_introl eq_refl) Hts).
Defined.

Lemma get_mood_trends_default_span_witness :
  exists report,
    get_mood_trends Sample.now Sample.one_hour_ago 24 = Ok report
    /\ TrendReport.mood_percentages report
       = List.map (fun i => snd (period_summary Sample.one_hour_ago
                                   (Sample.now - (i + 1) * (4 * Datetime.us_per_hour),
                                    Sample.now - i * (4 * Datetime.us_per_hour))))
                  [0; 1; 2; 3; 4; 5]
    /\ ((forall m, In m Sample.one_hour_ago ->
           Mood.timestamp m < Sample.now - 24 * Datetime.us_per_hour
           \/ Sample.now < Mood.timestamp m) ->
        TrendReport.mood_percentages report = [0; 0; 0; 0; 0; 0]
        /\ TrendReport.trend_direction report = "stable").
Proof.
  exact (get_mood_trends_default_span Sample.now Sample.one_hour_ago sample_now_in_range).
Defined.

Lemma get_mood_data_for_api_filters_witness :
  exists result,
    @App.get_mood_data_for_api Sample.runtime Sample.concert_six Sample.now
      (Some 55.75%float) (Some 37.625%float) (Some 5%float) (Some 24%float)
      (Some ["😊"; "😎"]) = Ok result
    /\ result `sublist_of` List.map App.row_dict Sample.concert_six
    /\ (forall m, In m result -> exists s, Mood.text m = Some s)
    /\ (forall h, Some 24%float = Some h ->
          exists delta cutoff_time,
            Datetime.timedelta_hours h = Ok delta
            /\ Datetime.sub_timedelta Sample.now delta = Ok cutoff_time
            /\ forall m, In m result -> cutoff_time < Mood.timestamp m)
    /\ (forall e es, Some ["😊"; "😎"] = Some (e :: es) ->
          forall m, In m result -> In (Mood.emoji m) (e :: es))
    /\ (forall la ln r,
          Some 55.75%float = Some la -> Some 37.625%float = Some ln ->
          Some 5%float = Some r ->
          forall m, In m result -> @within_radius Sample.runtime la ln r m = true).
Proof.
  destruct (@App.get_mood_data_for_api Sample.runtime Sample.concert_six Sample.now
              (Some 55.75%float) (Some 37.625%float) (Some 5%float) (Some 24%float)
              (Some ["😊"; "😎"])) as [result|e] eqn:E.
  - exists result. split; [reflexivity|].
    exact (@get_mood_data_for_api_filters Sample.runtime _ _ _ _ _ _ _ result E).
  - vm_compute in E. discriminate E.
Defined.

Lemma get_events_min_confidence_witness :
  @App.get_events Sample.runtime Sample.concert_six Sample.now None None None 24 30
  = @App.get_events Sample.runtime Sample.concert_six Sample.now None None None 24 0.
Proof.
  apply (@get_events_min_confidence Sample.runtime). lia.
Defined.

Lemma get_trends_total_moods_witness :
  exists trends total_moods,
    @App.get_trends Sample.runtime Sample.concert_six Sample.now 24
      (Some 55.75%float) (Some 37.625%float) (Some 5%float) = Ok (trends, total_moods)
    /\ total_moods = total_count (TrendReport.emoji_counts trends)
    /\ 0 <= total_moods <= Z.of_nat (List.length Sample.concert_six)
    /\ List.length (TrendReport.mood_percentages trends) = 6%nat.
Proof.
  destruct (@App.get_trends Sample.runtime Sample.concert_six Sample.now 24
              (Some 55.75%float) (Some 37.625%float) (Some 5%float))
    as [[trends total_moods]|e] eqn:E.
  - exists trends, total_moods. split; [reflexivity|].
    exact (@get_trends_total_moods Sample.runtime _ _ _ _ _ _ trends total_moods E).
  - vm_compute in E. discriminate E.
Defined.

Lemma get_events_bad_hours_witness :
  @App.get_mood_data_for_api Sample.runtime Sample.concert_six Sample.now
    None None None (Some nan) None = Raise ValueError
  /\ @App.get_events Sample.runtime Sample.concert_six Sample.now
       None None None nan 30 = Raise ValueError.
Proof.
  apply (@get_events_bad_hours Sample.runtime Sample.concert_six Sample.now
           None None None nan None 30).
  left. reflexivity.
Defined.
